(** * PageSpeed monitor: sampling, averaging, snapshots and deltas

    A shallow embedding of the class [PageSpeedMonitor] (the script the
    README calls scripts/run.js; in the sources it follows the index
    generator in scripts/generate-index.js): [urlToFilename],
    [runLighthouse], [runMultipleLighthouse], [saveResults],
    [loadBaseline], [calculateDelta], [generateReports] and [run],
    followed by the properties the specification states about them.

    Modelling conventions.
    - JavaScript numbers are exact here: a category score of a sample or a
      snapshot is an integer ([Z]), a Lighthouse score and a quotient are
      rationals ([Q]), and [Math.round x] is [floor (x + 1/2)].  The sums
      and quotients of the averaging stay far inside the range where
      binary64 gives the same rounded result; a Lighthouse score is a
      two-decimal fraction, whose product by 100 rounds to the same
      integer in both.
    - Strings are sequences of 8-bit characters; URLs are ASCII.
    - What the script obtains from outside (the Lighthouse process, the
      clock, [JSON.parse]/[JSON.stringify], the HTML template) is an
      interface, [Host]; the file system and the log of Lighthouse
      invocations are an explicit state, [World].
    - [fs.writeFile] rejects when its directory is missing, and also when
      the file system refuses the file in a directory that is there (a
      name over its length limit, no permission, no space left): which
      files it refuses is part of [Host].
    - Console output and the pause between two runs are left out. *)

From Stdlib Require Import ZArith QArith Qround Lqa String Ascii List Lia.
From Stdlib Require Import Sorted.
From stdpp Require Import base option list strings pretty gmap.

Local Open Scope Z_scope.

(** ** Numbers *)

(** [Math.round]: nearest integer, ties towards +infinity. *)
Definition Math_round (x : Q) : Z := Qfloor (x + (1 # 2)).

(** [a / b] on two integer-valued numbers. *)
Definition js_div (a b : Z) : Q := (inject_Z a / inject_Z b)%Q.

(** ** Data *)

Inductive Category := Performance | Accessibility | BestPractices | SEO.

(** The object [runLighthouse] returns for one successful run. *)
Module Sample.
Record t := mk {
  performance : Z;
  accessibility : Z;
  bestPractices : Z;
  seo : Z;
  timestamp : string }.

Definition get (c : Category) (r : t) : Z :=
  match c with
  | Performance => performance r
  | Accessibility => accessibility r
  | BestPractices => bestPractices r
  | SEO => seo r
  end.
End Sample.

(** The object [averaged] of [runMultipleLighthouse]: what is saved in
    [baseline/] and [latest/]. *)
Module Snapshot.
Record t := mk {
  url : string;
  runs : nat;
  performance : Z;
  accessibility : Z;
  bestPractices : Z;
  seo : Z;
  timestamp : string;
  rawResults : list Sample.t }.

Definition get (c : Category) (s : t) : Z :=
  match c with
  | Performance => performance s
  | Accessibility => accessibility s
  | BestPractices => bestPractices s
  | SEO => seo s
  end.
End Snapshot.

(** The object [calculateDelta] returns. *)
Module Delta.
Record t := mk {
  performance : Z;
  accessibility : Z;
  bestPractices : Z;
  seo : Z }.

Definition get (c : Category) (d : t) : Z :=
  match c with
  | Performance => performance d
  | Accessibility => accessibility d
  | BestPractices => bestPractices d
  | SEO => seo d
  end.
End Delta.

(** The parsed Lighthouse report, at the shape the Lighthouse JSON format
    gives it: [categories] is an object or missing, each category is an
    object or missing, and its [score] is a number or [null]. *)
Module Report.
Record category := mkCategory { score : option Q }.

Record categories := mkCategories {
  performance : option category;
  accessibility : option category;
  best_practices : option category;
  seo : option category }.

Record t := mk { cats : option categories }.

(** [categories.performance], [categories.accessibility],
    [categories["best-practices"]], [categories.seo] *)
Definition get (c : Category) (cs : categories) : option category :=
  match c with
  | Performance => performance cs
  | Accessibility => accessibility cs
  | BestPractices => best_practices cs
  | SEO => seo cs
  end.
End Report.

(** ** The averaged snapshot ([runMultipleLighthouse], the object
    [averaged]) *)

(** [results.reduce((sum, r) => sum + r.<field>, 0)] *)
Definition reduce_sum (field : Sample.t → Z) (results : list Sample.t) : Z :=
  fold_left (λ sum r, sum + field r) results 0.

(** [Math.round(results.reduce(...) / results.length)] *)
Definition rounded_mean (field : Sample.t → Z) (results : list Sample.t) : Z :=
  Math_round (js_div (reduce_sum field results) (Z.of_nat (length results))).

Definition averaged (url : string) (results : list Sample.t) (now : string)
  : Snapshot.t :=
  {| Snapshot.url := url;
     Snapshot.runs := length results;
     Snapshot.performance := rounded_mean Sample.performance results;
     Snapshot.accessibility := rounded_mean Sample.accessibility results;
     Snapshot.bestPractices := rounded_mean Sample.bestPractices results;
     Snapshot.seo := rounded_mean Sample.seo results;
     Snapshot.timestamp := now;
     Snapshot.rawResults := results |}.

(** ** [calculateDelta] *)

Definition calculateDelta (current : Snapshot.t) (baseline : option Snapshot.t)
  : option Delta.t :=
  match baseline with
  | None => None
  | Some baseline =>
      Some {| Delta.performance :=
                Snapshot.performance current - Snapshot.performance baseline;
              Delta.accessibility :=
                Snapshot.accessibility current - Snapshot.accessibility baseline;
              Delta.bestPractices :=
                Snapshot.bestPractices current - Snapshot.bestPractices baseline;
              Delta.seo := Snapshot.seo current - Snapshot.seo baseline |}
  end.

(** ** [urlToFilename] *)

(** The first [n] characters removed. *)
Fixpoint string_drop (n : nat) (s : string) : string :=
  match n, s with
  | O, _ => s
  | S _, EmptyString => EmptyString
  | S k, String _ s' => string_drop k s'
  end.

(** [s.replace(/https?:\/\//, "")]: the leftmost match of [http://] or
    [https://] is removed, and only that one (the expression has no [g]
    flag). *)
Fixpoint strip_scheme (s : string) : string :=
  if String.prefix "https://" s then string_drop 8 s
  else if String.prefix "http://" s then string_drop 7 s
  else match s with
       | EmptyString => EmptyString
       | String c s' => String c (strip_scheme s')
       end.

(** The class [[a-zA-Z0-9]]. *)
Definition is_alnum (c : ascii) : bool :=
  let n := nat_of_ascii c in
  ((97 <=? n) && (n <=? 122) || (65 <=? n) && (n <=? 90)
   || (48 <=? n) && (n <=? 57))%nat.

(** [s.replace(/[^a-zA-Z0-9]/g, "-")] *)
Fixpoint dashify (s : string) : string :=
  match s with
  | EmptyString => EmptyString
  | String c s' => String (if is_alnum c then c else "-"%char) (dashify s')
  end.

Definition urlToFilename (url : string) : string :=
  (dashify (strip_scheme url) ++ ".json")%string.

(** [s.replace(pat, rep)] with a string pattern: the first occurrence. *)
Fixpoint replace_first (pat rep s : string) : string :=
  if String.prefix pat s then (rep ++ string_drop (String.length pat) s)%string
  else match s with
       | EmptyString => EmptyString
       | String c s' => String c (replace_first pat rep s')
       end.

(** ** The world outside the script *)

Inductive Dir := BaselineDir | LatestDir | ReportsDir.

#[export] Instance Dir_eq_dec : EqDecision Dir.
Proof. solve_decision. Defined.

(** A directory is a finite map from file names to contents, or [None]
    when the directory does not exist. *)
Record World := mkWorld {
  lighthouse_calls : list string;   (* URLs Lighthouse was run on, oldest first *)
  clock : nat;                      (* number of times the date was read *)
  urlsFile : option string;         (* contents of urls.json, if readable *)
  baselineDir : option (gmap string string);
  latestDir : option (gmap string string);
  reportsDir : option (gmap string string) }.

Definition dir_of (d : Dir) (w : World) : option (gmap string string) :=
  match d with
  | BaselineDir => baselineDir w
  | LatestDir => latestDir w
  | ReportsDir => reportsDir w
  end.

Definition set_dir (d : Dir) (files : gmap string string) (w : World) : World :=
  match d with
  | BaselineDir =>
      mkWorld (lighthouse_calls w) (clock w) (urlsFile w)
              (Some files) (latestDir w) (reportsDir w)
  | LatestDir =>
      mkWorld (lighthouse_calls w) (clock w) (urlsFile w)
              (baselineDir w) (Some files) (reportsDir w)
  | ReportsDir =>
      mkWorld (lighthouse_calls w) (clock w) (urlsFile w)
              (baselineDir w) (latestDir w) (Some files)
  end.

(** The file [name] of directory [d], if both exist. *)
Definition file_at (d : Dir) (name : string) (w : World) : option string :=
  dir_of d w ≫= (.!! name).

(** What the script calls but does not define. *)
Class Host := {
  (** [npx lighthouse "<url>" --output=json ...]: the standard output of
      the [n]-th invocation (counted from 0 over the whole process), or
      [None] when the command fails. *)
  lighthouse : nat → string → option string;
  (** [JSON.parse] on the output of Lighthouse; [None] when it throws. *)
  JSON_parse_report : string → option Report.t;
  (** [JSON.parse] on a file of [baseline/]; [None] when it throws.  The
      files there are the ones [saveResults] wrote: a text that parses is
      the text of a snapshot. *)
  JSON_parse_snapshot : string → option Snapshot.t;
  (** [JSON.parse] on urls.json; [None] when it throws. *)
  JSON_parse_urls : string → option (list string);
  (** [JSON.stringify(result, null, 2)] *)
  JSON_stringify : Snapshot.t → string;
  (** [new Date().toISOString()] at the [n]-th reading of the date. *)
  toISOString : nat → string;
  (** The HTML template of [generateHtmlReport]. *)
  generateHtmlReport :
    Snapshot.t → option Snapshot.t → option Delta.t → string;
  (** [fs.writeFile] of a file (its name, its text) into a directory that
      exists: the error with which the file system rejects the file (a
      name over its length limit, no permission, no space left), or
      [None] when it writes it. *)
  writeFile_error : Dir → string → string → option string }.

(** ** Computations: state, exceptions and [process.exit] *)

Inductive Outcome (A : Type) :=
  | Returned (a : A)
  | Thrown (error : string)
  | Exited (code : Z).
Arguments Returned {A} a.
Arguments Thrown {A} error.
Arguments Exited {A} code.

Definition Eff (A : Type) : Type := World → Outcome A * World.

#[export] Instance Eff_ret : MRet Eff := λ A a w, (Returned a, w).

#[export] Instance Eff_bind : MBind Eff := λ A B k m w,
  match m w with
  | (Returned a, w') => k a w'
  | (Thrown e, w') => (Thrown e, w')
  | (Exited c, w') => (Exited c, w')
  end.

Definition throw {A} (error : string) : Eff A := λ w, (Thrown error, w).

Definition process_exit {A} (code : Z) : Eff A := λ w, (Exited code, w).

(** [try { body } catch (error) { handler }] *)
Definition try_catch {A} (body : Eff A) (handler : string → Eff A) : Eff A :=
  λ w, match body w with
       | (Thrown e, w') => handler e w'
       | r => r
       end.

(** [for (const x of xs) { body }] *)
Fixpoint for_of {A} (xs : list A) (body : A → Eff unit) : Eff unit :=
  match xs with
  | [] => mret ()
  | x :: xs' => body x ≫= λ _, for_of xs' body
  end.

(** [fs.writeFile(path.join(dir, name), data)]: rejects when the
    directory is missing or the file system refuses the file, creates or
    overwrites the file otherwise. *)
Definition writeFile `{!Host} (d : Dir) (name data : string) : Eff unit := λ w,
  match dir_of d w with
  | None => (Thrown "ENOENT", w)
  | Some files =>
      match writeFile_error d name data with
      | Some error => (Thrown error, w)
      | None => (Returned (), set_dir d (<[name := data]> files) w)
      end
  end.

(** [fs.readFile(path.join(dir, name), "utf8")] *)
Definition readFile (d : Dir) (name : string) : Eff string := λ w,
  match file_at d name w with
  | None => (Thrown "ENOENT", w)
  | Some data => (Returned data, w)
  end.

Section Monitor.
Context `{!Host}.

(** [new Date().toISOString()] *)
Definition now : Eff string := λ w,
  (Returned (toISOString (clock w)),
   mkWorld (lighthouse_calls w) (S (clock w)) (urlsFile w)
           (baselineDir w) (latestDir w) (reportsDir w)).

(** [execAsync(`npx lighthouse "${url}" ...`)] *)
Definition execAsync_lighthouse (url : string) : Eff string := λ w,
  let w' := mkWorld (lighthouse_calls w ++ [url]) (clock w) (urlsFile w)
                    (baselineDir w) (latestDir w) (reportsDir w) in
  match lighthouse (length (lighthouse_calls w)) url with
  | None => (Thrown "Command failed", w')
  | Some stdout => (Returned stdout, w')
  end.

(** [JSON.parse(text)] *)
Definition parse {A} (parser : string → option A) (text : string) : Eff A :=
  match parser text with
  | None => throw "SyntaxError"
  | Some v => mret v
  end.

(** ** [runLighthouse] *)

(** [x || 0] on a number or [undefined]/[null]. *)
Definition or_zero (x : option Q) : Q :=
  match x with
  | Some q => if Qeq_bool q 0 then 0%Q else q
  | None => 0%Q
  end.

(** [Math.round((category?.score || 0) * 100)] *)
Definition score100 (category : option Report.category) : Z :=
  Math_round (or_zero (category ≫= Report.score) * 100).

(** The object literal [runLighthouse] returns. *)
Definition sample_of (categories : Report.categories) (timestamp : string)
  : Sample.t :=
  {| Sample.performance := score100 (Report.performance categories);
     Sample.accessibility := score100 (Report.accessibility categories);
     Sample.bestPractices := score100 (Report.best_practices categories);
     Sample.seo := score100 (Report.seo categories);
     Sample.timestamp := timestamp |}.

Definition runLighthouse (url : string) : Eff (option Sample.t) :=
  try_catch
    (stdout ← execAsync_lighthouse url;
     result ← parse JSON_parse_report stdout;
     match Report.cats result with
     | None =>
         throw "Invalid Lighthouse result format - no categories found"
     | Some categories =>
         timestamp ← now;
         mret (Some (sample_of categories timestamp))
     end)
    (λ error, mret None).

(** ** [runMultipleLighthouse] *)

(** The loop [for (let i = 1; i <= runs; i++)], with [remaining] the
    number of iterations still to do.  The two-second pause between
    runs changes nothing in the state. *)
Fixpoint sampling_loop (url : string) (remaining : nat)
    (results : list Sample.t) : Eff (list Sample.t) :=
  match remaining with
  | O => mret results
  | S k =>
      result ← runLighthouse url;
      sampling_loop url k
        (match result with
         | Some r => results ++ [r]
         | None => results
         end)
  end.

Definition runMultipleLighthouse (url : string) (runs : nat)
  : Eff (option Snapshot.t) :=
  results ← sampling_loop url runs [];
  if decide (0 = length results)%nat then mret None
  else timestamp ← now; mret (Some (averaged url results timestamp)).

(** The default value of the parameter [runs]. *)
Definition default_runs : nat := 3.

(** ** [saveResults], [loadBaseline], [generateReports] *)

Definition saveResults (results : list Snapshot.t) (isBaseline : bool)
  : Eff unit :=
  let targetDir := if isBaseline then BaselineDir else LatestDir in
  for_of results (λ result,
    let filename := urlToFilename (Snapshot.url result) in
    writeFile targetDir filename (JSON_stringify result)).

Definition loadBaseline (url : string) : Eff (option Snapshot.t) :=
  let filename := urlToFilename url in
  try_catch
    (data ← readFile BaselineDir filename;
     snapshot ← parse JSON_parse_snapshot data;
     mret (Some snapshot))
    (λ error, mret None).

Definition generateReports (results : list Snapshot.t) : Eff unit :=
  for_of results (λ result,
    baseline ← loadBaseline (Snapshot.url result);
    let delta := calculateDelta result baseline in
    let html := generateHtmlReport result baseline delta in
    let filename :=
      replace_first ".json" ".html" (urlToFilename (Snapshot.url result)) in
    writeFile ReportsDir filename html).

(** ** [run] *)

Definition loadUrls : Eff (list string) :=
  try_catch
    (urlsData ← (λ w, match urlsFile w with
                      | None => (Thrown "ENOENT", w)
                      | Some data => (Returned data, w)
                      end);
     parse JSON_parse_urls urlsData)
    (λ error, process_exit 1).

(** [args.findIndex((arg) => arg.startsWith("--url"))], with [None]
    for -1; [i] is the index of the head of [args]. *)
Fixpoint findIndex_url (i : nat) (args : list string) : option nat :=
  match args with
  | [] => None
  | arg :: rest =>
      if String.prefix "--url" arg then Some i
      else findIndex_url (S i) rest
  end.

(** The URLs of a run: the argument after [--url...] when there is a
    non-empty one, the contents of urls.json otherwise. *)
Definition select_urls (args : list string) : Eff (list string) :=
  match findIndex_url 0 args ≫= λ i, args !! S i with
  | Some (String c u) => mret [String c u]
  | _ => loadUrls
  end.

(** The first loop of [run]: one [runMultipleLighthouse] per URL, the
    non-null results pushed in order. *)
Fixpoint sample_urls (urls : list string) (results : list Snapshot.t)
  : Eff (list Snapshot.t) :=
  match urls with
  | [] => mret results
  | url :: urls' =>
      result ← runMultipleLighthouse url default_runs;
      sample_urls urls'
        (match result with
         | Some r => results ++ [r]
         | None => results
         end)
  end.

(** [run] from the point where [updateBaseline] and [urls] are known. *)
Definition run_urls (updateBaseline : bool) (urls : list string) : Eff unit :=
  results ← sample_urls urls [];
  if decide (0 = length results)%nat then process_exit 1
  else if updateBaseline then saveResults results true
  else (saveResults results false ≫= λ _, generateReports results).

Definition run (args : list string) : Eff unit :=
  let updateBaseline := bool_decide ("--update-baseline" ∈ args) in
  urls ← select_urls args;
  run_urls updateBaseline urls.

(** The exit status of the process: [monitor.run().catch(... exit(1))]. *)
Definition exit_status {A} (r : Outcome A) : Z :=
  match r with
  | Returned _ => 0
  | Thrown _ => 1
  | Exited code => code
  end.

End Monitor.

(** ** The vocabulary of the specification *)

(** "Sum the category's score across all samples, divide by
    [len(samples)]". *)
Definition arithmetic_mean (c : Category) (samples : list Sample.t) : Q :=
  (inject_Z (foldr Z.add 0%Z (Sample.get c <$> samples))
   / inject_Z (Z.of_nat (length samples)))%Q.

(** "Round to the nearest integer using standard round-half-up
    semantics": [r] is at distance at most 1/2 from [x], and of the two
    candidates of a tie it is the upper one. *)
Definition nearest_half_up (x : Q) (r : Z) : Prop :=
  (inject_Z r - (1 # 2) <= x)%Q ∧ (x < inject_Z r + (1 # 2))%Q.

(** The least and the greatest score of a category among the samples
    (0 for no sample). *)
Definition score_min (c : Category) (samples : list Sample.t) : Z :=
  match Sample.get c <$> samples with
  | [] => 0
  | x :: xs => foldr Z.min x xs
  end.

Definition score_max (c : Category) (samples : list Sample.t) : Z :=
  match Sample.get c <$> samples with
  | [] => 0
  | x :: xs => foldr Z.max x xs
  end.

(** A score of the valid range. *)
Definition valid_scores (s : Snapshot.t) : Prop :=
  ∀ c, 0 ≤ Snapshot.get c s ≤ 100.

(** The snapshots the first loop of [run] collects. *)
Definition snapshots_of `{!Host} (urls : list string) (w : World)
  : list Snapshot.t :=
  match (sample_urls urls [] w).1 with
  | Returned results => results
  | _ => []
  end.

(** The outcome of one Scorer invocation as a function of the host's
    answers: the sample of the [n]-th Lighthouse invocation when the date
    has been read [t] times, or [None] for a failed run. *)
Definition scorer `{!Host} (n t : nat) (url : string) : option Sample.t :=
  stdout ← lighthouse n url;
  result ← JSON_parse_report stdout;
  categories ← Report.cats result;
  Some (sample_of categories (toISOString t)).

(** The samples of [runs] consecutive Scorer invocations that start at
    Lighthouse invocation [n] with the date read [t] times: the failed
    ones are left out, and only a successful run reads the date. *)
Fixpoint successful_runs `{!Host} (url : string) (runs n t : nat)
  : list Sample.t :=
  match runs with
  | O => []
  | S k =>
      match scorer n t url with
      | Some s => s :: successful_runs url k (S n) (S t)
      | None => successful_runs url k (S n) t
      end
  end.

(** The world after Lighthouse was run on [urls] and the date was read
    [ticks] more times. *)
Definition sampled (w : World) (urls : list string) (ticks : nat) : World :=
  mkWorld (lighthouse_calls w ++ urls) (clock w + ticks) (urlsFile w)
          (baselineDir w) (latestDir w) (reportsDir w).

(** [saveResults] on a directory that exists: one file per result, in
    order, a later one replacing an earlier one of the same name. *)
Definition save_all `{!Host} (results : list Snapshot.t)
    (files : gmap string string) : gmap string string :=
  foldl (λ m r, <[urlToFilename (Snapshot.url r) := JSON_stringify r]> m)
        files results.

(** What [loadBaseline] reads: the file of the URL in [baseline/], parsed,
    when both steps succeed. *)
Definition stored_baseline `{!Host} (url : string) (w : World)
  : option Snapshot.t :=
  file_at BaselineDir (urlToFilename url) w ≫= JSON_parse_snapshot.

(** A Scorer invocation that did not yield a sample. *)
Definition failed (o : Outcome (option Sample.t)) : bool :=
  match o with
  | Returned (Some _) => false
  | _ => true
  end.

(** The sample of a Scorer invocation, if any. *)
Definition sample_from (o : Outcome (option Sample.t)) : option Sample.t :=
  match o with
  | Returned s => s
  | _ => None
  end.

(** The file [saveResults] writes for a result: its name and its text. *)
Definition snapshot_file `{!Host} (r : Snapshot.t) : string * string :=
  (urlToFilename (Snapshot.url r), JSON_stringify r).

(** The file [generateReports] writes for a result when [baseline/] is as
    in the world [w]: its name and its text. *)
Definition report_file `{!Host} (w : World) (r : Snapshot.t)
  : string * string :=
  let baseline := stored_baseline (Snapshot.url r) w in
  (replace_first ".json" ".html" (urlToFilename (Snapshot.url r)),
   generateHtmlReport r baseline (calculateDelta r baseline)).

(** The file system takes, in the directory [d], the file of every
    element of [xs]. *)
Definition accepted `{!Host} {A} (d : Dir) (file : A → string * string)
    (xs : list A) : Prop :=
  ∀ x, x ∈ xs → writeFile_error d (file x).1 (file x).2 = None.

(** A loop that writes into [d] the file of each element of [xs] in turn
    stops at the first file the file system rejects: the elements whose
    file gets written are those before it. *)
Fixpoint accepted_prefix `{!Host} {A} (d : Dir) (file : A → string * string)
    (xs : list A) : list A :=
  match xs with
  | [] => []
  | x :: xs' =>
      match writeFile_error d (file x).1 (file x).2 with
      | None => x :: accepted_prefix d file xs'
      | Some _ => []
      end
  end.

(** The error that stops such a loop, if any. *)
Fixpoint rejection `{!Host} {A} (d : Dir) (file : A → string * string)
    (xs : list A) : option string :=
  match xs with
  | [] => None
  | x :: xs' =>
      match writeFile_error d (file x).1 (file x).2 with
      | None => rejection d file xs'
      | Some error => Some error
      end
  end.

(** How a loop of writes ends. *)
Definition ended (error : option string) : Outcome unit :=
  match error with
  | Some error => Thrown error
  | None => Returned ()
  end.

(** The results whose snapshot [saveResults] gets written into [d]. *)
Definition saved `{!Host} (d : Dir) (results : list Snapshot.t)
  : list Snapshot.t :=
  accepted_prefix d snapshot_file results.

(** The results whose page [generateReports] gets written when
    [baseline/] is as in [w]. *)
Definition reported `{!Host} (w : World) (results : list Snapshot.t)
  : list Snapshot.t :=
  accepted_prefix ReportsDir (report_file w) results.

(** Every write of a run that collects [results] in the world [w]
    succeeds: the directory is there and the file system takes the file.
    In baseline-update mode the run writes the snapshots into [baseline/];
    otherwise it writes them into [latest/] and then their pages into
    [reports/]. *)
Definition writable `{!Host} (updateBaseline : bool)
    (results : list Snapshot.t) (w : World) : Prop :=
  if updateBaseline
  then is_Some (baselineDir w) ∧ accepted BaselineDir snapshot_file results
  else is_Some (latestDir w) ∧ accepted LatestDir snapshot_file results
       ∧ is_Some (reportsDir w) ∧ accepted ReportsDir (report_file w) results.

(** ** A small host, to run the definitions on *)

Module Demo.
(** A category whose score is [percent]/100. *)
Definition category (percent : Z) : option Report.category :=
  Some {| Report.score := Some (percent # 100) |}.

Definition report (p a b s : Z) : Report.t :=
  {| Report.cats := Some {|
       Report.performance := category p;
       Report.accessibility := category a;
       Report.best_practices := category b;
       Report.seo := category s |} |}.

(** The documents the report parser of this host understands. *)
Definition reports : list (string * Report.t) :=
  [ ("p80", report 80 70 70 70);
    ("p90", report 90 70 70 70);
    ("p100", report 100 70 70 70);
    ("no-categories", {| Report.cats := None |});
    ("no-performance",
      {| Report.cats := Some {|
           Report.performance := None;
           Report.accessibility := category 70;
           Report.best_practices := category 70;
           Report.seo := category 70 |} |});
    ("null-seo",
      {| Report.cats := Some {|
           Report.performance := category 80;
           Report.accessibility := category 70;
           Report.best_practices := category 70;
           Report.seo := Some {| Report.score := None |} |} |}) ].

Definition stringify (s : Snapshot.t) : string :=
  (Snapshot.url s ++ " runs:" ++ pretty (Snapshot.runs s)
   ++ " P:" ++ pretty (Snapshot.performance s)
   ++ " A:" ++ pretty (Snapshot.accessibility s)
   ++ " BP:" ++ pretty (Snapshot.bestPractices s)
   ++ " SEO:" ++ pretty (Snapshot.seo s))%string.

Definition render (current : Snapshot.t) (baseline : option Snapshot.t)
    (delta : option Delta.t) : string :=
  (Snapshot.url current ++ " delta P:"
   ++ match delta with
      | Some d => pretty (Delta.performance d)
      | None => "N/A"
      end)%string.

(** The longest file name of this host's file system. *)
Definition name_max : nat := 255.

(** The host whose Lighthouse answers [outputs !! n] at its [n]-th
    invocation (a failure past the end), whose snapshot parser reads back
    the snapshots of [stored], and whose file system rejects the names
    over [name_max] characters and no other file. *)
Definition host (outputs : list (option string)) (stored : list Snapshot.t)
  : Host :=
  {| lighthouse n _ := outputs !! n ≫= id;
     JSON_parse_report text :=
       snd <$> find (λ d, String.eqb d.1 text) reports;
     JSON_parse_snapshot text :=
       find (λ s, String.eqb (stringify s) text) stored;
     JSON_parse_urls _ := None;
     JSON_stringify := stringify;
     toISOString n := ("T+" ++ pretty n)%string;
     generateHtmlReport := render;
     writeFile_error _ name _ :=
       if (name_max <? String.length name)%nat then Some "ENAMETOOLONG"
       else None |}.

(** A fresh checkout with the three directories present and empty. *)
Definition empty_world : World :=
  {| lighthouse_calls := [];
     clock := 0;
     urlsFile := None;
     baselineDir := Some ∅;
     latestDir := Some ∅;
     reportsDir := Some ∅ |}.

(** The same, without the directory [baseline/]. *)
Definition no_baseline_world : World :=
  {| lighthouse_calls := [];
     clock := 0;
     urlsFile := None;
     baselineDir := None;
     latestDir := Some ∅;
     reportsDir := Some ∅ |}.

(** The same, without the directory [reports/]. *)
Definition no_reports_world : World :=
  {| lighthouse_calls := [];
     clock := 0;
     urlsFile := None;
     baselineDir := Some ∅;
     latestDir := Some ∅;
     reportsDir := None |}.

(** [baseline/] holds a file for https://example.com/ that is not
    JSON. *)
Definition corrupt_world : World :=
  set_dir BaselineDir {["example-com-.json" := "{ not json"]} empty_world.

(** Lighthouse is never reached. *)
Definition host_offline : Host := host [] [].

(** Three good runs: performance 80, 90, 100. *)
Definition host_80_90_100 : Host :=
  host [Some "p80"; Some "p90"; Some "p100"] [].

(** The second of three runs fails. *)
Definition host_80_fail_100 : Host :=
  host [Some "p80"; None; Some "p100"] [].

(** One run whose report has no performance category. *)
Definition host_no_performance : Host := host [Some "no-performance"] [].

(** A report without [categories], then one whose SEO score is [null]. *)
Definition host_odd_reports : Host :=
  host [Some "no-categories"; Some "null-seo"] [].

(** Three failed runs, then three good ones. *)
Definition host_down_then_up : Host :=
  host [None; None; None; Some "p80"; Some "p90"; Some "p100"] [].

(** Three samples with performance 80, 90, 100 and 70 elsewhere. *)
Definition samples : list Sample.t :=
  [ Sample.mk 80 70 70 70 "T+0";
    Sample.mk 90 70 70 70 "T+1";
    Sample.mk 100 70 70 70 "T+2" ].

(** [n] times the letter a. *)
Fixpoint letters (n : nat) : string :=
  match n with
  | O => EmptyString
  | S k => String "a" (letters k)
  end.

(** A URL of 300 characters. *)
Definition long_url : string := ("https://example.com/" ++ letters 280)%string.
End Demo.

(** Modelled from the spec: the pre-configured URL set.  The file
    urls.json is not among the sources; these are the ten pages the README
    lists as pre-configured, with the scheme its examples use. *)
Definition configured_urls : list string :=
  [ "https://redis.io/";
    "https://redis.io/try-free";
    "https://redis.io/meeting";
    "https://redis.io/cloud";
    "https://redis.io/software";
    "https://redis.io/insight";
    "https://redis.io/downloads";
    "https://redis.io/lp/try1/";
    "https://redis.io/resources";
    "https://redis.io/pricing" ].

(** ** The report page ([generateHtmlReport]) *)

(** [html t] is the text [t] with a double quote in the place of every
    backquote.  The templates of the script are written down with it: no
    template of the script holds a backquote. *)
Fixpoint html (t : string) : string :=
  match t with
  | EmptyString => EmptyString
  | String c t' =>
      String (if Ascii.eqb c "`" then "034"%char else c) (html t')
  end.

Module Page.
(** [formatDelta], with [None] for [null]. *)
Definition formatDelta (value : option Z) : string :=
  match value with
  | None => "N/A"
  | Some value =>
      let sign := if 0 <? value then "+" else "" in
      let colorClass :=
        if 0 <? value then "positive"
        else if value <? 0 then "negative" else "neutral" in
      (html "<span class=`"
       ++ colorClass
       ++ html "`>"
       ++ sign
       ++ pretty value
       ++ "</span>")%string
  end.

Definition formatScore (score : Z) : string :=
  let colorClass :=
    if 90 <=? score then "good"
    else if 50 <=? score then "needs-improvement" else "poor" in
  (html "<span class=`score "
   ++ colorClass
   ++ html "`>"
   ++ pretty score
   ++ "</span>")%string.

(** [generateHtmlReport]; [None] when it throws, which it does on reading
    [delta.performance] for the table of a report that has a baseline and
    no delta. *)
Definition generateHtmlReport (current : Snapshot.t)
    (baseline : option Snapshot.t) (delta : option Delta.t) : option string :=
  table ←
    match baseline with
    | Some baseline =>
        delta ← delta;
        Some ("
    <table>
        <thead>
            <tr>
                <th>Metric</th>
                <th>Baseline</th>
                <th>Current</th>
                <th>Change</th>
            </tr>
        </thead>
        <tbody>
            <tr>
                <td>Performance</td>
                <td>"
           ++ formatScore (Snapshot.performance baseline)
           ++ "</td>
                <td>"
           ++ formatScore (Snapshot.performance current)
           ++ "</td>
                <td>"
           ++ formatDelta (Some (Delta.performance delta))
           ++ "</td>
            </tr>
            <tr>
                <td>Accessibility</td>
                <td>"
           ++ formatScore (Snapshot.accessibility baseline)
           ++ "</td>
                <td>"
           ++ formatScore (Snapshot.accessibility current)
           ++ "</td>
                <td>"
           ++ formatDelta (Some (Delta.accessibility delta))
           ++ "</td>
            </tr>
            <tr>
                <td>Best Practices</td>
                <td>"
           ++ formatScore (Snapshot.bestPractices baseline)
           ++ "</td>
                <td>"
           ++ formatScore (Snapshot.bestPractices current)
           ++ "</td>
                <td>"
           ++ formatDelta (Some (Delta.bestPractices delta))
           ++ "</td>
            </tr>
            <tr>
                <td>SEO</td>
                <td>"
           ++ formatScore (Snapshot.seo baseline)
           ++ "</td>
                <td>"
           ++ formatScore (Snapshot.seo current)
           ++ "</td>
                <td>"
           ++ formatDelta (Some (Delta.seo delta))
           ++ "</td>
            </tr>
        </tbody>
    </table>
    ")%string
    | None =>
        Some "<p><em>No baseline data available. Run with --update-baseline to establish baseline.</em></p>"
    end;
  Some
    ("
<!DOCTYPE html>
<html>
<head>
    <title>PageSpeed Report - "
     ++ Snapshot.url current
     ++ html "</title>
    <style>
        body { font-family: Arial, sans-serif; margin: 20px; }
        .header { background: #f5f5f5; padding: 15px; border-radius: 5px; margin-bottom: 20px; }
        .metrics { display: grid; grid-template-columns: repeat(auto-fit, minmax(200px, 1fr)); gap: 15px; }
        .metric { border: 1px solid #ddd; padding: 15px; border-radius: 5px; }
        .score.good { color: #0c7e3e; font-weight: bold; }
        .score.needs-improvement { color: #e67e22; font-weight: bold; }
        .score.poor { color: #d93025; font-weight: bold; }
        .positive { color: #0c7e3e; font-weight: bold; }
        .negative { color: #d93025; font-weight: bold; }
        .neutral { color: #666; }
        .timestamp { color: #666; font-size: 0.9em; }
        table { width: 100%; border-collapse: collapse; margin-top: 20px; }
        th, td { border: 1px solid #ddd; padding: 10px; text-align: left; }
        th { background-color: #f5f5f5; }
    </style>
</head>
<body>
    <div class=`header`>
        <h1>PageSpeed Report</h1>
        <h2>"
     ++ Snapshot.url current
     ++ html "</h2>
        <p class=`timestamp`>Generated: "
     ++ Snapshot.timestamp current
     ++ "</p>
        <p>Based on "
     ++ pretty (Snapshot.runs current)
     ++ html " Lighthouse runs (averaged)</p>
    </div>

    <div class=`metrics`>
        <div class=`metric`>
            <h3>Performance</h3>
            <p>Current: "
     ++ formatScore (Snapshot.performance current)
     ++ "</p>
            "
     ++ match baseline with
      | Some baseline =>
          "<p>Baseline: "
            ++ formatScore (Snapshot.performance baseline)
            ++ "</p>"
      | None => ""
      end
     ++ "
            <p>Delta: "
     ++ formatDelta (Delta.performance <$> delta)
     ++ html "</p>
        </div>
        <div class=`metric`>
            <h3>Accessibility</h3>
            <p>Current: "
     ++ formatScore (Snapshot.accessibility current)
     ++ "</p>
            "
     ++ match baseline with
      | Some baseline =>
          "<p>Baseline: "
            ++ formatScore (Snapshot.accessibility baseline)
            ++ "</p>"
      | None => ""
      end
     ++ "
            <p>Delta: "
     ++ formatDelta (Delta.accessibility <$> delta)
     ++ html "</p>
        </div>
        <div class=`metric`>
            <h3>Best Practices</h3>
            <p>Current: "
     ++ formatScore (Snapshot.bestPractices current)
     ++ "</p>
            "
     ++ match baseline with
      | Some baseline =>
          "<p>Baseline: "
            ++ formatScore (Snapshot.bestPractices baseline)
            ++ "</p>"
      | None => ""
      end
     ++ "
            <p>Delta: "
     ++ formatDelta (Delta.bestPractices <$> delta)
     ++ html "</p>
        </div>
        <div class=`metric`>
            <h3>SEO</h3>
            <p>Current: "
     ++ formatScore (Snapshot.seo current)
     ++ "</p>
            "
     ++ match baseline with
      | Some baseline =>
          "<p>Baseline: "
            ++ formatScore (Snapshot.seo baseline)
            ++ "</p>"
      | None => ""
      end
     ++ "
            <p>Delta: "
     ++ formatDelta (Delta.seo <$> delta)
     ++ "</p>
        </div>
    </div>

    "
     ++ table
     ++ "
</body>
</html>")%string.
End Page.

(** ** The dashboard ([IndexGenerator]) *)

(** What the index generator calls but does not define. *)
Class Runtime := {
  (** [new URL(text)]: the [hostname] and the [pathname] of the URL, or
      [None] when the constructor throws. *)
  URL_parse : string → option (string * string);
  (** [a.localeCompare(b)] *)
  localeCompare : string → string → Z;
  (** [new Date().toLocaleString()] at the [n]-th reading of the date. *)
  toLocaleString : nat → string }.

(** [s.endsWith(suffix)] *)
Fixpoint ends_with (suffix s : string) : bool :=
  String.eqb s suffix
  || match s with
     | EmptyString => false
     | String _ s' => ends_with suffix s'
     end.

(** [fs.readdir]: the names of the files of a directory, in the order of
    the file system (here, the order of the map). *)
Definition readdir (files : gmap string string) : list string :=
  (map_to_list files).*1.

Module Index.
(** An element of [reports] in [getReportData]: the fields of a stored
    snapshot and [filename]. *)
Record report := mkReport {
  snapshot : Snapshot.t;
  filename : string }.

Definition getScoreClass (score : Z) : string :=
  if 90 <=? score then "good"
  else if 50 <=? score then "needs-improvement"
  else "poor".

Definition getScoreColor (score : Z) : string :=
  if 90 <=? score then "#22543d"
  else if 50 <=? score then "#b7791f"
  else "#c53030".

(** [Math.round(reports.reduce((sum, r) => sum + r.<field>, 0) /
    reports.length)] *)
Definition average (field : Snapshot.t → Z) (reports : list report) : Z :=
  Math_round
    (js_div (fold_left (λ sum r, sum + field (snapshot r)) reports 0)
            (Z.of_nat (length reports))).

Definition generateStatsSection (reports : list report) : string :=
  if decide (length reports = 0)%nat then ""
  else
    let avgPerformance := average Snapshot.performance reports in
    let avgAccessibility := average Snapshot.accessibility reports in
    let avgBestPractices := average Snapshot.bestPractices reports in
    let avgSeo := average Snapshot.seo reports in
    (html "
    <div class=`stats`>
        <div class=`stat-card`>
            <div class=`stat-number` style=`color: "
     ++ getScoreColor avgPerformance
     ++ html "`>"
     ++ pretty avgPerformance
     ++ html "</div>
            <div class=`stat-label`>Avg Performance</div>
        </div>
        <div class=`stat-card`>
            <div class=`stat-number` style=`color: "
     ++ getScoreColor avgAccessibility
     ++ html "`>"
     ++ pretty avgAccessibility
     ++ html "</div>
            <div class=`stat-label`>Avg Accessibility</div>
        </div>
        <div class=`stat-card`>
            <div class=`stat-number` style=`color: "
     ++ getScoreColor avgBestPractices
     ++ html "`>"
     ++ pretty avgBestPractices
     ++ html "</div>
            <div class=`stat-label`>Avg Best Practices</div>
        </div>
        <div class=`stat-card`>
            <div class=`stat-number` style=`color: "
     ++ getScoreColor avgSeo
     ++ html "`>"
     ++ pretty avgSeo
     ++ html "</div>
            <div class=`stat-label`>Avg SEO</div>
        </div>
    </div>")%string.

(** [generateReportCard]; [None] when [new URL] throws. *)
Definition generateReportCard `{!Runtime} (report : report) : option string :=
  url ← URL_parse (Snapshot.url (snapshot report));
  let displayName :=
    if String.eqb url.2 "/" then url.1 else (url.1 ++ url.2)%string in
  Some
    (html "
    <div class=`report-card`>
        <h3 class=`report-title`>"
     ++ displayName
     ++ html "</h3>
        <div class=`scores`>
            <div class=`score "
     ++ getScoreClass (Snapshot.performance (snapshot report))
     ++ html "`>
                <span class=`score-label`>Performance</span>
                <span class=`score-value`>"
     ++ pretty (Snapshot.performance (snapshot report))
     ++ html "</span>
            </div>
            <div class=`score "
     ++ getScoreClass (Snapshot.accessibility (snapshot report))
     ++ html "`>
                <span class=`score-label`>Accessibility</span>
                <span class=`score-value`>"
     ++ pretty (Snapshot.accessibility (snapshot report))
     ++ html "</span>
            </div>
            <div class=`score "
     ++ getScoreClass (Snapshot.bestPractices (snapshot report))
     ++ html "`>
                <span class=`score-label`>Best Practices</span>
                <span class=`score-value`>"
     ++ pretty (Snapshot.bestPractices (snapshot report))
     ++ html "</span>
            </div>
            <div class=`score "
     ++ getScoreClass (Snapshot.seo (snapshot report))
     ++ html "`>
                <span class=`score-label`>SEO</span>
                <span class=`score-value`>"
     ++ pretty (Snapshot.seo (snapshot report))
     ++ html "</span>
            </div>
        </div>
        <a href=`"
     ++ filename report
     ++ html "` class=`view-report`>📋 View Full Report</a>
    </div>")%string.

(** [reports.sort((a, b) => a.url.localeCompare(b.url))]: the sort of an
    array is stable; [insert_report] puts a report before the first one
    that does not come before it. *)
Fixpoint insert_report `{!Runtime} (x : report) (l : list report)
  : list report :=
  match l with
  | [] => [x]
  | y :: l' =>
      if decide (localeCompare (Snapshot.url (snapshot x))
                               (Snapshot.url (snapshot y)) ≤ 0)
      then x :: y :: l'
      else y :: insert_report x l'
  end.

Fixpoint sort_reports `{!Runtime} (l : list report) : list report :=
  match l with
  | [] => []
  | x :: l' => insert_report x (sort_reports l')
  end.

(** The body of the loop of [getReportData]: the report of one file of
    [latest/], or [None] when the file does not parse. *)
Definition read_report `{!Host} (files : gmap string string) (file : string)
  : option report :=
  data ← files !! file;
  report ← JSON_parse_snapshot data;
  Some {| snapshot := report;
          filename := replace_first ".json" ".html" file |}.

Definition getReportData `{!Host, !Runtime} (w : World) : list report :=
  match latestDir w with
  | None => []
  | Some files =>
      sort_reports
        (omap (read_report files)
              (List.filter (ends_with ".json") (readdir files)))
  end.

(** [createIndexHtml] when the date has been read [clock w] times; [None]
    when a card throws. *)
Definition createIndexHtml `{!Host, !Runtime} (w : World) : option string :=
  let reports := getReportData w in
  let timestamp := toLocaleString (clock w) in
  body ←
    (if decide (0 < length reports)%nat then
       cards ← mapM generateReportCard reports;
       Some (html "
    <div class=`reports-grid`>
        "
           ++ String.concat "" cards
           ++ "
    </div>
    ")%string
     else
       Some (html "
    <div class=`no-reports`>
        <h2>🚀 No reports available yet</h2>
        <p>Reports will appear here after the first PageSpeed test runs.</p>
    </div>
    ")%string);
  Some
    (html "<!DOCTYPE html>
<html lang=`en`>
<head>
    <meta charset=`UTF-8`>
    <meta name=`viewport` content=`width=device-width, initial-scale=1.0`>
    <title>📊 PageSpeed Monitoring Dashboard</title>
    <style>
        * { margin: 0; padding: 0; box-sizing: border-box; }
        body { 
            font-family: -apple-system, BlinkMacSystemFont, 'Segoe UI', Roboto, sans-serif;
            line-height: 1.6; 
            color: #333; 
            background: #f8fafc;
            padding: 20px;
        }
        .header {
            background: linear-gradient(135deg, #667eea 0%, #764ba2 100%);
            color: white;
            padding: 40px 20px;
            border-radius: 12px;
            text-align: center;
            margin-bottom: 30px;
            box-shadow: 0 4px 6px rgba(0,0,0,0.1);
        }
        .header h1 { font-size: 2.5rem; margin-bottom: 10px; }
        .header p { font-size: 1.1rem; opacity: 0.9; }
        .stats {
            display: grid;
            grid-template-columns: repeat(auto-fit, minmax(200px, 1fr));
            gap: 20px;
            margin-bottom: 30px;
        }
        .stat-card {
            background: white;
            padding: 20px;
            border-radius: 8px;
            text-align: center;
            box-shadow: 0 2px 4px rgba(0,0,0,0.1);
        }
        .stat-number { font-size: 2rem; font-weight: bold; margin-bottom: 5px; }
        .stat-label { color: #666; font-size: 0.9rem; }
        .reports-grid {
            display: grid;
            grid-template-columns: repeat(auto-fit, minmax(350px, 1fr));
            gap: 20px;
            margin-bottom: 30px;
        }
        .report-card {
            background: white;
            border-radius: 12px;
            padding: 24px;
            box-shadow: 0 2px 8px rgba(0,0,0,0.1);
            transition: transform 0.2s, box-shadow 0.2s;
        }
        .report-card:hover {
            transform: translateY(-2px);
            box-shadow: 0 4px 12px rgba(0,0,0,0.15);
        }
        .report-title {
            font-size: 1.3rem;
            font-weight: 600;
            margin-bottom: 15px;
            color: #2d3748;
        }
        .scores {
            display: grid;
            grid-template-columns: repeat(2, 1fr);
            gap: 12px;
            margin-bottom: 20px;
        }
        .score {
            display: flex;
            justify-content: space-between;
            align-items: center;
            padding: 8px 12px;
            border-radius: 6px;
            font-size: 0.9rem;
        }
        .score-label { font-weight: 500; }
        .score-value { font-weight: 700; }
        .score.good { background: #f0fff4; color: #22543d; }
        .score.needs-improvement { background: #fffbf0; color: #b7791f; }
        .score.poor { background: #fff5f5; color: #c53030; }
        .view-report {
            display: inline-block;
            background: #667eea;
            color: white;
            padding: 10px 20px;
            border-radius: 6px;
            text-decoration: none;
            font-weight: 500;
            transition: background 0.2s;
        }
        .view-report:hover { background: #5a67d8; }
        .footer {
            text-align: center;
            color: #666;
            margin-top: 40px;
            padding: 20px;
            background: white;
            border-radius: 8px;
        }
        .no-reports {
            text-align: center;
            background: white;
            padding: 60px 20px;
            border-radius: 12px;
            color: #666;
        }
        @media (max-width: 768px) {
            .header h1 { font-size: 2rem; }
            .scores { grid-template-columns: 1fr; }
        }
    </style>
</head>
<body>
    <div class=`header`>
        <h1>📊 PageSpeed Monitoring Dashboard</h1>
        <p>Real-time performance monitoring with Lighthouse</p>
    </div>

    "
     ++ generateStatsSection reports
     ++ "

    "
     ++ body
     ++ html "

    <div class=`footer`>
        <p>🤖 Last updated: "
     ++ timestamp
     ++ "</p>
        <p>📈 Powered by Lighthouse • 🔄 Auto-updated via GitHub Actions</p>
    </div>
</body>
</html>")%string.

(** The monitor's directories and clock, and [docs/]. *)
Record Site := mkSite {
  monitor : World;
  docsDir : option (gmap string string) }.

(** [fs.copy] of the file [file] of [reports/] into [docs/]. *)
Definition copy_report (reports docs : gmap string string) (file : string)
  : gmap string string :=
  match reports !! file with
  | Some data => <[file := data]> docs
  | None => docs
  end.

(** [generateIndex]: [docs/] is created when missing, receives the pages
    of [reports/], then the dashboard as index.html. *)
Definition generateIndex `{!Host, !Runtime} (s : Site) : Outcome unit * Site :=
  let w := monitor s in
  let docs := default ∅ (docsDir s) in
  let docs :=
    match reportsDir w with
    | Some reports =>
        foldl (copy_report reports) docs
              (List.filter (ends_with ".html") (readdir reports))
    | None => docs
    end in
  let w' := mkWorld (lighthouse_calls w) (S (clock w)) (urlsFile w)
                    (baselineDir w) (latestDir w) (reportsDir w) in
  match createIndexHtml w with
  | Some indexHtml =>
      (Returned (), mkSite w' (Some (<["index.html" := indexHtml]> docs)))
  | None => (Thrown "Invalid URL", mkSite w' (Some docs))
  end.
End Index.

(** ** Further vocabulary, for the properties beyond the specification *)

(** A character [urlToFilename] lets through or puts in. *)
Definition alnum_or_dash (c : ascii) : Prop :=
  is_alnum c = true ∨ c = "-"%char.

(** [generateReports] on a directory that exists, in the world [w]: one
    page per result, in order, rendered against the baseline stored in
    [w], a later page replacing an earlier one of the same name. *)
Definition report_all `{!Host} (results : list Snapshot.t) (w : World)
    (files : gmap string string) : gmap string string :=
  foldl (λ m r,
           let baseline := stored_baseline (Snapshot.url r) w in
           <[replace_first ".json" ".html" (urlToFilename (Snapshot.url r))
             := generateHtmlReport r baseline (calculateDelta r baseline)]> m)
        files results.

(** Every score of every report Lighthouse prints lies between 0 and 1,
    as the Lighthouse format has it. *)
Definition unit_scores `{!Host} : Prop :=
  ∀ text result categories c category q,
    JSON_parse_report text = Some result →
    Report.cats result = Some categories →
    Report.get c categories = Some category →
    Report.score category = Some q →
    (0 <= q <= 1)%Q.

(** The scores of a sample are in 0..100. *)
Definition valid_sample (s : Sample.t) : Prop :=
  ∀ c, 0 ≤ Sample.get c s ≤ 100.

(** More hosts and worlds to run the definitions on. *)
Module Tour.
(** The snapshot of three good runs of https://example.com/. *)
Definition snapshot_90 : Snapshot.t :=
  averaged "https://example.com/" Demo.samples "T+3".

(** Three good runs, and a parser that reads [snapshot_90] back. *)
Definition host_round_trip : Host :=
  Demo.host [Some "p80"; Some "p90"; Some "p100"] [snapshot_90].

(** The text up to the first slash, and the text from it on. *)
Fixpoint split_at_slash (s : string) : string * string :=
  match s with
  | EmptyString => (EmptyString, EmptyString)
  | String c s' =>
      if Ascii.eqb c "/" then (EmptyString, s)
      else let (host, path) := split_at_slash s' in (String c host, path)
  end.

(** A runtime that reads URLs of the form https://host/path, orders
    strings by their characters and prints the date as a counter. *)
Definition runtime : Runtime :=
  {| URL_parse text :=
       if String.prefix "https://" text then
         let (host, path) := split_at_slash (string_drop 8 text) in
         Some (host, if String.eqb path "" then "/" else path)
       else None;
     localeCompare a b :=
       match String.compare a b with
       | Lt => -1
       | Eq => 0
       | Gt => 1
       end;
     toLocaleString n := ("day " ++ pretty n)%string |}.
End Tour.

(** The text [needle] occurs in the text [page]. *)
Definition occurs_in (needle page : string) : Prop :=
  ∃ before after, page = (before ++ needle ++ after)%string.

(** The same, as a test. *)
Fixpoint occursb (needle page : string) : bool :=
  String.prefix needle page
  || match page with
     | EmptyString => false
     | String _ page' => occursb needle page'
     end.

(** The order of the dashboard: [a] does not come after [b]. *)
Definition url_order `{!Runtime} (a b : Index.report) : Prop :=
  localeCompare (Snapshot.url (Index.snapshot a))
                (Snapshot.url (Index.snapshot b)) ≤ 0.

(** What [docs/] holds under [name] once the pages of [reports/] have
    been copied: the page of [reports/] for an [.html] name that has one,
    what was there before otherwise. *)
Definition published (s : Index.Site) (name : string) : option string :=
  match file_at ReportsDir name (Index.monitor s) with
  | Some data =>
      if ends_with ".html" name then Some data
      else Index.docsDir s ≫= (.!! name)
  | None => Index.docsDir s ≫= (.!! name)
  end.

(** * Properties *)

(** ** The definitions on concrete inputs *)

(** The file names of the README: [baseline/example-com.json] and
    [reports/example-com.html]. *)
Example urlToFilename_readme :
  urlToFilename "https://example.com" = "example-com.json"
  ∧ urlToFilename "https://example.com/about" = "example-com-about.json"
  ∧ replace_first ".json" ".html" (urlToFilename "https://example.com")
    = "example-com.html".
Proof. repeat split. Qed.

(** Only the first scheme goes, wherever it stands. *)
Example strip_scheme_first_only :
  strip_scheme "see http://a.b/?next=https://c.d" = "see a.b/?next=https://c.d".
Proof. reflexivity. Qed.

(** Halves go up, also below zero. *)
Example Math_round_halves :
  Math_round (5 # 2) = 3 ∧ Math_round (-5 # 2) = -2 ∧ Math_round (7 # 3) = 2.
Proof. repeat split. Qed.

(** [--url] with a value replaces urls.json; without one urls.json is
    read, and the run exits with status 1 when it cannot be. *)
Example select_urls_cases :
  (select_urls (H := Demo.host_offline) ["--url"; "https://example.com/"]
     Demo.empty_world).1 = Returned ["https://example.com/"]
  ∧ (select_urls (H := Demo.host_offline) ["--update-baseline"]
       Demo.empty_world).1 = Exited 1.
Proof. repeat split. Qed.

(** A report without [categories] is a failed run; one with a [null]
    score is a sample with a 0. *)
Example runLighthouse_odd_reports :
  let r1 := runLighthouse (H := Demo.host_odd_reports) "https://example.com/"
              Demo.empty_world in
  let r2 := runLighthouse (H := Demo.host_odd_reports) "https://example.com/"
              r1.2 in
  r1.1 = Returned None
  ∧ r2.1 = Returned (Some (Sample.mk 80 70 70 0 "T+0")).
Proof. repeat split. Qed.

(** ** Rounding and sums *)

Lemma Math_round_nearest (x : Q) : nearest_half_up x (Math_round x).
Proof.
  unfold nearest_half_up, Math_round.
  pose proof (Qfloor_le (x + (1 # 2))) as Hle.
  pose proof (Qlt_floor (x + (1 # 2))) as Hlt.
  rewrite inject_Z_plus in Hlt. change (inject_Z 1) with 1%Q in Hlt.
  generalize dependent (inject_Z (Qfloor (x + (1 # 2)))). intros k Hle Hlt.
  split; lra.
Qed.

Lemma nearest_half_up_unique (x : Q) (r r' : Z) :
  nearest_half_up x r → nearest_half_up x r' → r = r'.
Proof.
  intros [Hlo Hhi] [Hlo' Hhi'].
  assert (inject_Z r - (1 # 2) < inject_Z r' + (1 # 2))%Q as H1
    by (eapply Qle_lt_trans; eassumption).
  assert (inject_Z r' - (1 # 2) < inject_Z r + (1 # 2))%Q as H2
    by (eapply Qle_lt_trans; eassumption).
  unfold Qlt, Qminus, Qplus, Qopp, inject_Z in H1, H2. simpl in H1, H2. lia.
Qed.

(** On a positive divisor the rounded quotient is an integer division. *)
Lemma Math_round_div (a b : Z) :
  0 < b → Math_round (js_div a b) = (2 * a + b) / (2 * b).
Proof.
  intros Hb. destruct b as [|p|p]; try lia.
  unfold Math_round, js_div.
  assert (inject_Z a / inject_Z (Z.pos p) + (1 # 2)
          == (2 * a + Z.pos p) # (2 * p))%Q as ->.
  { unfold Qeq, Qdiv, Qmult, Qplus, Qinv, inject_Z. simpl. lia. }
  reflexivity.
Qed.

(** A larger count does not raise the rounded quotient of a sum that is
    not negative. *)
Lemma rounded_quotient_antitone (S n : Z) :
  0 ≤ S → 0 < n → (2 * S + (n + 1)) / (2 * (n + 1)) ≤ (2 * S + n) / (2 * n).
Proof.
  intros HS Hn.
  apply Z.div_le_lower_bound; [lia|].
  pose proof (Z.mul_div_le (2 * S + (n + 1)) (2 * (n + 1)) ltac:(lia)).
  assert (0 ≤ (2 * S + (n + 1)) / (2 * (n + 1))) by (apply Z.div_pos; lia).
  nia.
Qed.

Lemma fold_left_add_shift {A} (f : A → Z) (l : list A) (a : Z) :
  fold_left (λ sum r, sum + f r) l a = a + fold_left (λ sum r, sum + f r) l 0.
Proof.
  revert a. induction l as [|x l IH]; intros a; simpl; [lia|].
  rewrite (IH (a + f x)), (IH (0 + f x)). lia.
Qed.

Lemma reduce_sum_cons (f : Sample.t → Z) (x : Sample.t) (l : list Sample.t) :
  reduce_sum f (x :: l) = f x + reduce_sum f l.
Proof. unfold reduce_sum. simpl. rewrite fold_left_add_shift. lia. Qed.

Lemma reduce_sum_foldr (f : Sample.t → Z) (l : list Sample.t) :
  reduce_sum f l = foldr Z.add 0 (f <$> l).
Proof.
  induction l as [|x l IH]; [reflexivity|].
  rewrite reduce_sum_cons, IH. reflexivity.
Qed.

Lemma averaged_get (c : Category) url results now :
  Snapshot.get c (averaged url results now) = rounded_mean (Sample.get c) results.
Proof. destruct c; reflexivity. Qed.

Lemma rounded_mean_nearest (c : Category) (results : list Sample.t) :
  nearest_half_up (arithmetic_mean c results)
                  (rounded_mean (Sample.get c) results).
Proof.
  unfold rounded_mean, arithmetic_mean, js_div.
  rewrite reduce_sum_foldr. apply Math_round_nearest.
Qed.

Lemma reduce_sum_bounds (f : Sample.t → Z) (l : list Sample.t) (lo hi : Z) :
  (∀ x, x ∈ l → lo ≤ f x ≤ hi) →
  lo * Z.of_nat (length l) ≤ reduce_sum f l ≤ hi * Z.of_nat (length l).
Proof.
  induction l as [|x l IH]; intros Hb.
  - unfold reduce_sum. simpl. lia.
  - rewrite reduce_sum_cons.
    pose proof (Hb x ltac:(left)) as Hx.
    destruct IH as [IH1 IH2]; [intros y Hy; apply Hb; by right|].
    rewrite length_cons, Nat2Z.inj_succ. lia.
Qed.

Lemma reduce_sum_nonneg (f : Sample.t → Z) (l : list Sample.t) :
  (∀ x, x ∈ l → 0 ≤ f x) → 0 ≤ reduce_sum f l.
Proof.
  induction l as [|x l IH]; intros Hpos; [done|].
  rewrite reduce_sum_cons.
  pose proof (Hpos x ltac:(left)).
  assert (0 ≤ reduce_sum f l) by (apply IH; intros; apply Hpos; by right).
  lia.
Qed.

(** The rounded mean stays between any two integers that bound every
    sample. *)
Lemma rounded_mean_bounds (f : Sample.t → Z) (l : list Sample.t) (lo hi : Z) :
  l ≠ [] → (∀ x, x ∈ l → lo ≤ f x ≤ hi) → lo ≤ rounded_mean f l ≤ hi.
Proof.
  intros Hne Hb.
  assert (0 < Z.of_nat (length l)) as Hlen by (destruct l; [done|simpl; lia]).
  unfold rounded_mean. rewrite Math_round_div by exact Hlen.
  pose proof (reduce_sum_bounds f l lo hi Hb) as [H1 H2].
  split.
  - apply Z.div_le_lower_bound; lia.
  - apply Z.lt_succ_r. apply Z.div_lt_upper_bound; lia.
Qed.

(** A sample whose score is 0 leaves the sum as it is and adds one to the
    count. *)
Lemma rounded_mean_with_zero (f : Sample.t → Z) (before after : list Sample.t)
    (s : Sample.t) :
  f s = 0 →
  rounded_mean f (before ++ s :: after) =
    Math_round (js_div (reduce_sum f (before ++ after))
                       (Z.of_nat (length (before ++ after)) + 1)).
Proof.
  intros Hzero. unfold rounded_mean.
  assert (reduce_sum f (before ++ s :: after) = reduce_sum f (before ++ after))
    as ->.
  { rewrite !reduce_sum_foldr, !fmap_app, !foldr_app, fmap_cons. simpl.
    by rewrite Hzero. }
  assert (Z.of_nat (length (before ++ s :: after))
          = Z.of_nat (length (before ++ after)) + 1) as ->
    by (rewrite !length_app; simpl; lia).
  reflexivity.
Qed.

Lemma foldr_min_le (x : Z) (xs : list Z) :
  foldr Z.min x xs ≤ x ∧ ∀ y, y ∈ xs → foldr Z.min x xs ≤ y.
Proof.
  induction xs as [|z xs [IH1 IH2]]; simpl.
  - split; [lia|]. intros y Hy. by apply elem_of_nil in Hy.
  - split; [lia|]. intros y Hy. apply elem_of_cons in Hy as [->|Hy]; [lia|].
    specialize (IH2 y Hy). lia.
Qed.

Lemma foldr_max_ge (x : Z) (xs : list Z) :
  x ≤ foldr Z.max x xs ∧ ∀ y, y ∈ xs → y ≤ foldr Z.max x xs.
Proof.
  induction xs as [|z xs [IH1 IH2]]; simpl.
  - split; [lia|]. intros y Hy. by apply elem_of_nil in Hy.
  - split; [lia|]. intros y Hy. apply elem_of_cons in Hy as [->|Hy]; [lia|].
    specialize (IH2 y Hy). lia.
Qed.

Lemma score_min_max_bound (c : Category) (samples : list Sample.t) (s : Sample.t) :
  s ∈ samples → score_min c samples ≤ Sample.get c s ≤ score_max c samples.
Proof.
  intros Hs. unfold score_min, score_max.
  assert (Sample.get c s ∈ Sample.get c <$> samples) as Hin
    by (apply list_elem_of_fmap; eauto).
  destruct (Sample.get c <$> samples) as [|x xs]; [by apply elem_of_nil in Hin|].
  pose proof (foldr_min_le x xs) as [Hm1 Hm2].
  pose proof (foldr_max_ge x xs) as [HM1 HM2].
  apply elem_of_cons in Hin as [->|Hin]; [lia|].
  specialize (Hm2 _ Hin). specialize (HM2 _ Hin). lia.
Qed.

(** ** The effects of sampling *)

Section Sampling.
Context `{!Host}.

Lemma sampled_0 w : sampled w [] 0 = w.
Proof.
  destruct w. unfold sampled. simpl. rewrite app_nil_r, Nat.add_0_r. done.
Qed.

Lemma sampled_sampled w us us' t t' :
  sampled (sampled w us t) us' t' = sampled w (us ++ us') (t + t').
Proof.
  unfold sampled. simpl. rewrite <- app_assoc, Nat.add_assoc. done.
Qed.

(** One Scorer invocation never throws; it logs one Lighthouse
    invocation and reads the date when it succeeds. *)
Lemma runLighthouse_scorer url w :
  runLighthouse url w =
    let o := scorer (length (lighthouse_calls w)) (clock w) url in
    (Returned o, sampled w [url] (match o with Some _ => 1 | None => 0 end)).
Proof.
  unfold runLighthouse, try_catch, scorer, mbind, Eff_bind,
    execAsync_lighthouse, parse, sampled. simpl.
  destruct (lighthouse _ url) as [stdout|]; simpl;
    [|by rewrite Nat.add_0_r].
  destruct (JSON_parse_report stdout) as [result|]; simpl;
    [|by rewrite Nat.add_0_r].
  destruct (Report.cats result) as [categories|]; simpl;
    [|by rewrite Nat.add_0_r].
  by rewrite Nat.add_1_r.
Qed.

Lemma sampling_loop_spec url runs results w :
  sampling_loop url runs results w =
    let ss := successful_runs url runs (length (lighthouse_calls w)) (clock w) in
    (Returned (results ++ ss), sampled w (replicate runs url) (length ss)).
Proof.
  revert results w. induction runs as [|k IH]; intros results w; simpl.
  - by rewrite app_nil_r, sampled_0.
  - unfold mbind, Eff_bind. rewrite runLighthouse_scorer. simpl.
    rewrite IH. simpl. rewrite length_app. simpl.
    rewrite Nat.add_1_r, sampled_sampled. simpl.
    destruct (scorer _ _ url) as [s|]; simpl.
    + by rewrite Nat.add_1_r, <- app_assoc.
    + by rewrite Nat.add_0_r.
Qed.

Lemma runMultipleLighthouse_spec url runs w :
  runMultipleLighthouse url runs w =
    let ss := successful_runs url runs (length (lighthouse_calls w)) (clock w) in
    match ss with
    | [] => (Returned None, sampled w (replicate runs url) 0)
    | _ :: _ =>
        (Returned (Some (averaged url ss (toISOString (clock w + length ss)))),
         sampled w (replicate runs url) (S (length ss)))
    end.
Proof.
  unfold runMultipleLighthouse, mbind, Eff_bind.
  rewrite sampling_loop_spec. simpl.
  destruct (successful_runs _ _ _ _) as [|s ss]; simpl; [done|].
  unfold now, sampled. simpl. do 2 f_equal. f_equal; lia.
Qed.

Lemma successful_runs_length url runs n t :
  (length (successful_runs url runs n t) ≤ runs)%nat.
Proof.
  revert n t. induction runs as [|k IH]; intros n t; simpl; [lia|].
  destruct (scorer n t url); simpl; [specialize (IH (S n) (S t))
                                    |specialize (IH (S n) t)]; lia.
Qed.

Lemma bind_run {A B} (m : Eff A) (k : A → Eff B) (w : World) :
  (m ≫= k) w =
    match m w with
    | (Returned a, w') => k a w'
    | (Thrown e, w') => (Thrown e, w')
    | (Exited c, w') => (Exited c, w')
    end.
Proof. reflexivity. Qed.

(** The first loop of [run] never throws and touches no directory; what
    it adds to the results does not depend on what is already there. *)
Lemma sample_urls_acc urls w :
  ∃ new ticks, ∀ results,
    sample_urls urls results w =
      (Returned (results ++ new),
       sampled w (urls ≫= replicate default_runs) ticks).
Proof.
  revert w. induction urls as [|url urls IH]; intros w.
  - exists [], 0%nat. intros results. simpl.
    by rewrite app_nil_r, sampled_0.
  - pose proof (runMultipleLighthouse_spec url default_runs w) as Hrun.
    cbv zeta in Hrun.
    destruct (successful_runs _ _ _ _) as [|s ss].
    + destruct (IH (sampled w (replicate default_runs url) 0))
        as (new & ticks & Hnew).
      exists new, (0 + ticks)%nat. intros results. simpl sample_urls.
      rewrite bind_run, Hrun, Hnew, sampled_sampled. done.
    + destruct (IH (sampled w (replicate default_runs url) (S (length (s :: ss)))))
        as (new & ticks & Hnew).
      eexists (_ :: new), _. intros results. simpl sample_urls.
      rewrite bind_run, Hrun, Hnew, sampled_sampled, <- app_assoc. done.
Qed.

Lemma sample_urls_snapshots urls results w :
  ∃ ticks,
    sample_urls urls results w =
      (Returned (results ++ snapshots_of urls w),
       sampled w (urls ≫= replicate default_runs) ticks).
Proof.
  destruct (sample_urls_acc urls w) as (new & ticks & Hnew).
  exists ticks. unfold snapshots_of. rewrite (Hnew []). simpl.
  apply Hnew.
Qed.
End Sampling.

(** ** The effects on the file system *)

Section Files.
Context `{!Host}.

Lemma dir_of_set_dir d files w : dir_of d (set_dir d files w) = Some files.
Proof. by destruct d. Qed.

Lemma dir_of_set_dir_ne d d' files w :
  d ≠ d' → dir_of d' (set_dir d files w) = dir_of d' w.
Proof. by destruct d, d'. Qed.

Lemma set_dir_set_dir d files files' w :
  set_dir d files (set_dir d files' w) = set_dir d files w.
Proof. by destruct d. Qed.

Lemma dir_of_sampled d w us t : dir_of d (sampled w us t) = dir_of d w.
Proof. by destruct d. Qed.

Lemma file_at_sampled d name w us t :
  file_at d name (sampled w us t) = file_at d name w.
Proof. unfold file_at. by rewrite dir_of_sampled. Qed.

Lemma save_all_snoc results r files :
  save_all (results ++ [r]) files =
    <[urlToFilename (Snapshot.url r) := JSON_stringify r]>
      (save_all results files).
Proof. unfold save_all. by rewrite foldl_app. Qed.

(** A file of a saved directory is as before, or it is the snapshot of
    one of the results, under the name of its URL. *)
Lemma save_all_lookup results files name :
  save_all results files !! name = files !! name
  ∨ ∃ r, r ∈ results ∧ name = urlToFilename (Snapshot.url r)
         ∧ save_all results files !! name = Some (JSON_stringify r).
Proof.
  induction results as [|r results IH] using rev_ind; [by left|].
  rewrite save_all_snoc.
  destruct (decide (urlToFilename (Snapshot.url r) = name)) as [<-|Hne].
  - right. exists r. rewrite lookup_insert_eq.
    split; [apply elem_of_app; right; by left|done].
  - rewrite lookup_insert_ne by done.
    destruct IH as [IH|(r' & Hr' & Hname & IH)]; [by left|].
    right. exists r'. split; [apply elem_of_app; by left|done].
Qed.

(** The snapshot of a result is in its file when no other result has
    the same file name. *)
Lemma save_all_lookup_in results files r :
  r ∈ results →
  (∀ r', r' ∈ results →
         urlToFilename (Snapshot.url r') = urlToFilename (Snapshot.url r) →
         r' = r) →
  save_all results files !! urlToFilename (Snapshot.url r)
    = Some (JSON_stringify r).
Proof.
  induction results as [|x results IH] using rev_ind; intros Hin Huniq.
  - by apply elem_of_nil in Hin.
  - rewrite save_all_snoc.
    destruct (decide (urlToFilename (Snapshot.url x)
                      = urlToFilename (Snapshot.url r))) as [Heq|Hne].
    + rewrite (Huniq x) by (try apply elem_of_app; auto; right; by left).
      apply lookup_insert_eq.
    + rewrite lookup_insert_ne by done.
      apply elem_of_app in Hin as [Hin|Hin].
      * apply IH; [done|]. intros r' Hr'. apply Huniq.
        apply elem_of_app. by left.
      * apply list_elem_of_singleton in Hin. by subst.
Qed.

Lemma set_dir_same d files w : dir_of d w = Some files → set_dir d files w = w.
Proof. destruct w, d; simpl; by intros ->. Qed.

Lemma lighthouse_calls_set_dir d files w :
  lighthouse_calls (set_dir d files w) = lighthouse_calls w.
Proof. by destruct d. Qed.

(** A loop of writes ends without an error exactly when the file system
    takes every file. *)
Lemma rejection_None {A} d (file : A → string * string) xs :
  rejection d file xs = None ↔ accepted d file xs.
Proof.
  induction xs as [|x xs IH]; simpl.
  - split; [|done]. intros _ y Hy. by apply elem_of_nil in Hy.
  - destruct (writeFile_error d (file x).1 (file x).2) as [e|] eqn:Hx.
    + split; [done|]. intros Hall.
      specialize (Hall x ltac:(left)). congruence.
    + rewrite IH. split.
      * intros Hall y [->|Hy]%elem_of_cons; [done|by apply Hall].
      * intros Hall y Hy. apply Hall. by right.
Qed.

Lemma accepted_prefix_all {A} d (file : A → string * string) xs :
  accepted d file xs → accepted_prefix d file xs = xs.
Proof.
  induction xs as [|x xs IH]; intros Hall; simpl; [done|].
  rewrite (Hall x) by left.
  rewrite IH; [done|]. intros y Hy. apply Hall. by right.
Qed.

Lemma accepted_prefix_elem_of {A} d (file : A → string * string) xs x :
  x ∈ accepted_prefix d file xs → x ∈ xs.
Proof.
  induction xs as [|y xs IH]; simpl; [done|].
  destruct (writeFile_error _ _ _); [by intros ?%elem_of_nil|].
  intros [->|Hx]%elem_of_cons; [left|right; by apply IH].
Qed.

(** [saveResults]: with the directory missing it throws at the first
    result; otherwise it writes the snapshots in order and stops at the
    first one the file system rejects, with its error. *)
Lemma saveResults_spec results isBaseline w :
  saveResults results isBaseline w =
    let d := if isBaseline then BaselineDir else LatestDir in
    match dir_of d w with
    | Some files =>
        (ended (rejection d snapshot_file results),
         set_dir d (save_all (saved d results) files) w)
    | None =>
        (match results with
         | [] => Returned ()
         | _ :: _ => Thrown "ENOENT"
         end, w)
    end.
Proof.
  unfold saveResults, saved. cbv zeta.
  generalize (if isBaseline then BaselineDir else LatestDir). intros d.
  revert w. induction results as [|r results IH]; intros w.
  - simpl. destruct (dir_of d w) eqn:Hd; [|done]. by rewrite set_dir_same.
  - simpl for_of. rewrite bind_run. unfold writeFile at 1.
    destruct (dir_of d w) as [files|] eqn:Hd; [|done].
    cbn [rejection accepted_prefix snapshot_file fst snd].
    destruct (writeFile_error d _ _) as [e|]; simpl.
    + by rewrite set_dir_same.
    + by rewrite IH, dir_of_set_dir, set_dir_set_dir.
Qed.

Lemma loadBaseline_spec url w :
  loadBaseline url w = (Returned (stored_baseline url w), w).
Proof.
  unfold loadBaseline, try_catch, stored_baseline. cbv zeta.
  rewrite bind_run. unfold readFile.
  destruct (file_at BaselineDir (urlToFilename url) w) as [data|]; [|done].
  simpl. rewrite bind_run. unfold parse.
  by destruct (JSON_parse_snapshot data).
Qed.

Lemma stored_baseline_frame url w w' :
  baselineDir w = baselineDir w' → stored_baseline url w = stored_baseline url w'.
Proof. intros Hb. unfold stored_baseline, file_at. simpl. by rewrite Hb. Qed.

(** [generateReports] where [baseline/] is as in [w0]: with [reports/]
    missing it throws at the first result; otherwise it writes the pages
    in order and stops at the first one the file system rejects. *)
Lemma generateReports_in results w0 w :
  baselineDir w = baselineDir w0 →
  generateReports results w =
    match reportsDir w with
    | Some files =>
        (ended (rejection ReportsDir (report_file w0) results),
         set_dir ReportsDir (report_all (reported w0 results) w0 files) w)
    | None =>
        (match results with
         | [] => Returned ()
         | _ :: _ => Thrown "ENOENT"
         end, w)
    end.
Proof.
  unfold generateReports, reported.
  revert w. induction results as [|r results IH]; intros w Hb.
  - unfold report_all. cbn [for_of rejection accepted_prefix ended foldl].
    destruct (reportsDir w) eqn:Hd; [|done].
    by rewrite (set_dir_same ReportsDir).
  - simpl for_of. rewrite !bind_run, loadBaseline_spec.
    rewrite (stored_baseline_frame _ w w0 Hb).
    unfold writeFile at 1. simpl dir_of.
    destruct (reportsDir w) as [files|] eqn:Hd; [|done].
    cbn [rejection accepted_prefix report_file fst snd].
    destruct (writeFile_error ReportsDir _ _) as [e|].
    + unfold report_all. cbn [foldl ended].
      by rewrite (set_dir_same ReportsDir).
    + rewrite IH by done.
      change (reportsDir (set_dir ReportsDir ?f w)) with (Some f).
      cbv beta iota. by rewrite (set_dir_set_dir ReportsDir).
Qed.

(** [generateReports] writes to [reports/] only. *)
Lemma generateReports_frame results w :
  baselineDir (generateReports results w).2 = baselineDir w
  ∧ latestDir (generateReports results w).2 = latestDir w.
Proof.
  rewrite (generateReports_in results w w) by done.
  by destruct (reportsDir w).
Qed.

(** A file after [saveResults] is as before, or it is the snapshot of
    one of the results, under the name of its URL. *)
Lemma saveResults_files results isBaseline w d name :
  file_at d name (saveResults results isBaseline w).2 = file_at d name w
  ∨ ∃ r, r ∈ results ∧ name = urlToFilename (Snapshot.url r)
         ∧ file_at d name (saveResults results isBaseline w).2
           = Some (JSON_stringify r).
Proof.
  rewrite saveResults_spec. cbv zeta.
  set (target := if isBaseline then BaselineDir else LatestDir).
  destruct (dir_of target w) as [files|] eqn:Hfiles; [|by left].
  cbn [snd]. unfold file_at.
  destruct (decide (target = d)) as [<-|Hne].
  - rewrite dir_of_set_dir, Hfiles. simpl.
    destruct (save_all_lookup (saved target results) files name)
      as [|(r & Hr & Hname & Hfile)]; [by left|].
    right. exists r. split; [|done].
    by apply accepted_prefix_elem_of in Hr.
  - left. by rewrite dir_of_set_dir_ne.
Qed.
End Files.

(** ** The aggregator *)

(** C1. For a non-empty list of samples, each category score of the
    averaged snapshot is the sum of that category over the samples divided
    by their number, rounded to the nearest integer with halves rounded
    up (and it is the only integer that is), and its count is the number
    of samples; three samples with performance 80, 90, 100 and 70 in the
    other categories give performance 90, accessibility 70, best practices
    70, SEO 70 and a count of 3. *)
Theorem averaged_is_rounded_mean :
  (∀ (url now : string) (samples : list Sample.t),
     samples ≠ [] →
     Snapshot.runs (averaged url samples now) = length samples
     ∧ ∀ c r, nearest_half_up (arithmetic_mean c samples) r
              ↔ r = Snapshot.get c (averaged url samples now))
  ∧ (∀ (url now t1 t2 t3 : string),
       let snapshot :=
         averaged url [Sample.mk 80 70 70 70 t1; Sample.mk 90 70 70 70 t2;
                       Sample.mk 100 70 70 70 t3] now in
       Snapshot.performance snapshot = 90
       ∧ Snapshot.accessibility snapshot = 70
       ∧ Snapshot.bestPractices snapshot = 70
       ∧ Snapshot.seo snapshot = 70
       ∧ Snapshot.runs snapshot = 3%nat).
Proof.
  split.
  - intros url now samples _. split; [reflexivity|].
    intros c r. rewrite averaged_get. split.
    + intros Hr. eapply nearest_half_up_unique; [exact Hr|].
      apply rounded_mean_nearest.
    + intros ->. apply rounded_mean_nearest.
  - intros url now t1 t2 t3. cbv zeta. repeat split.
Qed.

Lemma averaged_is_rounded_mean_witness :
  Demo.samples ≠ []
  ∧ nearest_half_up (arithmetic_mean Performance Demo.samples) 90.
Proof.
  split; [discriminate|].
  apply (proj2 (proj1 averaged_is_rounded_mean "https://example.com/" "T+3"
                  Demo.samples ltac:(discriminate)) Performance 90).
  reflexivity.
Defined.

(** C2. For a non-empty list of samples, each category score of the
    averaged snapshot lies between the least and the greatest score of
    that category among the samples. *)
Theorem averaged_between_min_and_max
    (url now : string) (samples : list Sample.t) (c : Category) :
  samples ≠ [] →
  score_min c samples ≤ Snapshot.get c (averaged url samples now)
                      ≤ score_max c samples.
Proof.
  intros Hne. rewrite averaged_get.
  apply rounded_mean_bounds; [done|].
  intros s Hs. by apply score_min_max_bound.
Qed.

Lemma averaged_between_min_and_max_witness :
  Demo.samples ≠ []
  ∧ 80 ≤ Snapshot.get Performance
           (averaged "https://example.com/" Demo.samples "T+3") ≤ 100.
Proof.
  split; [discriminate|].
  apply (averaged_between_min_and_max "https://example.com/" "T+3"
           Demo.samples Performance); discriminate.
Defined.

(** ** The comparator *)

(** C3. For a latest and a baseline snapshot with scores in 0..100 the
    delta exists and each of its four categories is the latest score minus
    the baseline score; nothing is clamped: every value from -100 to 100,
    negative, zero or positive, is the delta of two such snapshots. *)
Theorem calculateDelta_is_difference :
  (∀ latest baseline : Snapshot.t,
     valid_scores latest → valid_scores baseline →
     ∃ delta, calculateDelta latest (Some baseline) = Some delta
              ∧ ∀ c, Delta.get c delta
                     = Snapshot.get c latest - Snapshot.get c baseline)
  ∧ (∀ d : Z, -100 ≤ d ≤ 100 →
       ∃ latest baseline delta,
         valid_scores latest ∧ valid_scores baseline
         ∧ calculateDelta latest (Some baseline) = Some delta
         ∧ ∀ c, Delta.get c delta = d).
Proof.
  split.
  - intros latest baseline _ _. eexists. split; [reflexivity|].
    by intros [].
  - intros d Hd.
    exists (Snapshot.mk "" 1 (Z.max d 0) (Z.max d 0) (Z.max d 0) (Z.max d 0) "" []),
           (Snapshot.mk "" 1 (Z.max (- d) 0) (Z.max (- d) 0) (Z.max (- d) 0)
                        (Z.max (- d) 0) "" []).
    eexists. split; [intros []; simpl; lia|].
    split; [intros []; simpl; lia|].
    split; [reflexivity|]. intros []; simpl; lia.
Qed.

Lemma calculateDelta_is_difference_witness :
  ∃ delta,
    calculateDelta (Snapshot.mk "https://example.com/" 3 90 70 70 70 "T+3" [])
                   (Some (Snapshot.mk "https://example.com/" 3 85 70 75 70 "T+0" []))
      = Some delta
    ∧ Delta.performance delta = 5 ∧ Delta.bestPractices delta = -5.
Proof.
  destruct (proj1 calculateDelta_is_difference
              (Snapshot.mk "https://example.com/" 3 90 70 70 70 "T+3" [])
              (Snapshot.mk "https://example.com/" 3 85 70 75 70 "T+0" []))
    as (delta & Hdelta & Hget).
  - intros []; simpl; lia.
  - intros []; simpl; lia.
  - exists delta. split; [exact Hdelta|].
    split; [apply (Hget Performance) | apply (Hget BestPractices)].
Defined.

(** C4. When [baseline/] holds no file for a URL, or the file it holds
    does not parse, [loadBaseline] yields [null] (no world change, no
    made-up snapshot) and [calculateDelta] on that result yields [null]. *)
Theorem missing_or_corrupt_baseline_gives_no_delta `{!Host}
    (url : string) (w : World) (current : Snapshot.t) :
  (file_at BaselineDir (urlToFilename url) w = None
   ∨ ∃ data, file_at BaselineDir (urlToFilename url) w = Some data
             ∧ JSON_parse_snapshot data = None) →
  ∃ baseline,
    loadBaseline url w = (Returned baseline, w)
    ∧ baseline = None
    ∧ calculateDelta current baseline = None.
Proof.
  intros Hfile. exists None. rewrite loadBaseline_spec.
  split; [|done]. do 2 f_equal. unfold stored_baseline.
  destruct Hfile as [->|(data & -> & Hparse)]; [done|exact Hparse].
Qed.

Lemma missing_or_corrupt_baseline_gives_no_delta_witness :
  (loadBaseline (H := Demo.host_offline) "https://example.com/"
     Demo.empty_world).1 = Returned None
  ∧ (loadBaseline (H := Demo.host_offline) "https://example.com/"
       Demo.corrupt_world).1 = Returned None
  ∧ calculateDelta (averaged "https://example.com/" Demo.samples "T+3") None
    = None.
Proof.
  destruct (missing_or_corrupt_baseline_gives_no_delta
              (H := Demo.host_offline)
              "https://example.com/" Demo.empty_world
              (averaged "https://example.com/" Demo.samples "T+3"))
    as (b1 & Hload1 & -> & Hdelta); [left; reflexivity|].
  destruct (missing_or_corrupt_baseline_gives_no_delta
              (H := Demo.host_offline)
              "https://example.com/" Demo.corrupt_world
              (averaged "https://example.com/" Demo.samples "T+3"))
    as (b2 & Hload2 & -> & _).
  { right. exists "{ not json". split; reflexivity. }
  rewrite Hload1, Hload2. split; [reflexivity|]. split; [reflexivity|].
  exact Hdelta.
Defined.

(** ** The URL key *)

(** C9, as stated, fails: two distinct URLs with the same key. *)
Lemma urlToFilename_collision :
  "https://redis.io/try-free" ≠ "https://redis.io/try/free"
  ∧ urlToFilename "https://redis.io/try-free"
    = urlToFilename "https://redis.io/try/free".
Proof. split; [discriminate | reflexivity]. Qed.

(** C9, amended. The key is a function of the URL string (the same URL
    gives the same key), and the ten configured URLs have ten pairwise
    distinct keys. *)
Theorem urlToFilename_stable_and_distinct_on_configured :
  (∀ u1 u2 : string, u1 = u2 → urlToFilename u1 = urlToFilename u2)
  ∧ (∀ u1 u2 : string,
       u1 ∈ configured_urls → u2 ∈ configured_urls → u1 ≠ u2 →
       urlToFilename u1 ≠ urlToFilename u2).
Proof.
  split; [by intros u1 u2 ->|].
  assert (NoDup (urlToFilename <$> configured_urls)) as Hnd
    by (apply (bool_decide_unpack _); vm_compute; exact I).
  intros u1 u2 H1 H2 Hne Heq. apply Hne.
  apply list_elem_of_lookup in H1 as [i Hi], H2 as [j Hj].
  assert (i = j) as ->.
  { eapply NoDup_lookup; [exact Hnd| |].
    - rewrite list_lookup_fmap, Hi. reflexivity.
    - rewrite list_lookup_fmap, Hj. simpl. by rewrite Heq. }
  congruence.
Qed.

Lemma urlToFilename_stable_and_distinct_on_configured_witness :
  urlToFilename "https://redis.io/" = "redis-io-.json"
  ∧ urlToFilename "https://redis.io/cloud" ≠ urlToFilename "https://redis.io/pricing".
Proof.
  split.
  - apply (proj1 urlToFilename_stable_and_distinct_on_configured
             "https://redis.io/" "https://redis.io/"). reflexivity.
  - apply (proj2 urlToFilename_stable_and_distinct_on_configured).
    + apply (bool_decide_unpack _). vm_compute. exact I.
    + apply (bool_decide_unpack _). vm_compute. exact I.
    + discriminate.
Defined.

(** ** The scorer *)

(** C10. When Lighthouse prints a report that parses and has a
    [categories] object, the run is a success whatever categories or
    scores are missing; a category that is missing, or whose score is
    [null], is recorded as 0; that 0 is averaged in like any score (the
    sum stays, the count grows by one), so that it does not raise the
    rounded mean of a category whose other scores are not negative, and
    takes 80 and 80 down to 53. *)
Theorem missing_category_score_counts_as_zero `{!Host}
    (url stdout : string) (w : World) (result : Report.t)
    (categories : Report.categories) :
  lighthouse (length (lighthouse_calls w)) url = Some stdout →
  JSON_parse_report stdout = Some result →
  Report.cats result = Some categories →
  ∃ sample w',
    runLighthouse url w = (Returned (Some sample), w')
    ∧ (∀ c, Report.get c categories = None
            ∨ Report.get c categories = Some {| Report.score := None |} →
            Sample.get c sample = 0)
    ∧ (∀ c before after now,
         Sample.get c sample = 0 →
         Snapshot.get c (averaged url (before ++ sample :: after) now)
         = Math_round
             (js_div (reduce_sum (Sample.get c) (before ++ after))
                     (Z.of_nat (length (before ++ after)) + 1)))
    ∧ (∀ c before after now,
         Sample.get c sample = 0 →
         before ++ after ≠ [] →
         (∀ s, s ∈ before ++ after → 0 ≤ Sample.get c s) →
         Snapshot.get c (averaged url (before ++ sample :: after) now)
         ≤ Snapshot.get c (averaged url (before ++ after) now))
    ∧ (∀ t1 t2 t3 now,
         Snapshot.performance
           (averaged url [Sample.mk 80 70 70 70 t1; Sample.mk 0 70 70 70 t2;
                          Sample.mk 80 70 70 70 t3] now) = 53).
Proof.
  intros Hout Hparse Hcats.
  rewrite runLighthouse_scorer. unfold scorer.
  rewrite Hout. simpl. rewrite Hparse. simpl. rewrite Hcats. simpl.
  eexists _, _. split; [reflexivity|]. split; [|split; [|split]].
  - intros c Hc.
    assert (Sample.get c (sample_of categories (toISOString (clock w)))
            = score100 (Report.get c categories)) as -> by by destruct c.
    by destruct Hc as [-> | ->].
  - intros c before after now Hzero.
    rewrite averaged_get. by apply rounded_mean_with_zero.
  - intros c before after now Hzero Hne Hpos.
    rewrite !averaged_get, rounded_mean_with_zero by done.
    unfold rounded_mean.
    pose proof (reduce_sum_nonneg (Sample.get c) (before ++ after) Hpos) as Hs.
    assert (0 < Z.of_nat (length (before ++ after))) as Hn
      by (destruct (before ++ after); [done|simpl; lia]).
    rewrite !Math_round_div by lia.
    by apply rounded_quotient_antitone.
  - intros. reflexivity.
Qed.

Lemma missing_category_score_counts_as_zero_witness :
  ∃ sample,
    (runLighthouse (H := Demo.host_no_performance) "https://example.com/"
       Demo.empty_world).1 = Returned (Some sample)
    ∧ Sample.performance sample = 0.
Proof.
  destruct (missing_category_score_counts_as_zero
              (H := Demo.host_no_performance)
              "https://example.com/" "no-performance" Demo.empty_world
              (Report.mk (Some (Report.mkCategories None (Demo.category 70)
                                  (Demo.category 70) (Demo.category 70))))
              (Report.mkCategories None (Demo.category 70)
                 (Demo.category 70) (Demo.category 70)))
    as (sample & w' & Hrun & Hzero & _); [reflexivity..|].
  exists sample. rewrite Hrun. split; [reflexivity|].
  apply (Hzero Performance). left. reflexivity.
Defined.

(** ** The orchestrator *)

Section Run.
Context `{!Host}.



Lemma snapshots_of_cons url urls w :
  snapshots_of (url :: urls) w =
    match (runMultipleLighthouse url default_runs w).1 with
    | Returned (Some r) => [r]
    | _ => []
    end ++ snapshots_of urls (runMultipleLighthouse url default_runs w).2.
Proof.
  unfold snapshots_of. simpl sample_urls. rewrite bind_run.
  rewrite runMultipleLighthouse_spec. cbv zeta.
  destruct (successful_runs _ _ _ _) as [|s ss]; simpl; [done|].
  match goal with
  | |- context [sample_urls urls ?acc ?w'] =>
      destruct (sample_urls_snapshots urls acc w') as [ticks ->];
      destruct (sample_urls_snapshots urls [] w') as [ticks' ->]
  end.
  done.
Qed.


(** [run] once its URLs are known: the sampling of every URL, then
    exit 1, or the saving of the collected snapshots. *)
Lemma run_urls_spec updateBaseline urls w :
  ∃ ticks,
    let w1 := sampled w (urls ≫= replicate default_runs) ticks in
    (sample_urls urls [] w).2 = w1
    ∧ run_urls updateBaseline urls w =
        match snapshots_of urls w with
        | [] => (Exited 1, w1)
        | results =>
            if updateBaseline then saveResults results true w1
            else (saveResults results false
                    ≫= λ _, generateReports results) w1
        end.
Proof.
  destruct (sample_urls_snapshots urls [] w) as [ticks Hs].
  exists ticks. cbv zeta. rewrite Hs. split; [done|].
  unfold run_urls. rewrite bind_run, Hs. cbn [app].
  destruct (snapshots_of urls w) as [|r rs]; [done|].
  destruct (decide _) as [Hlen|_]; [discriminate Hlen|].
  by destruct updateBaseline.
Qed.
(** A run in baseline-update mode: exit 1 without a snapshot, a failure
    without [baseline/], the saving of the snapshots otherwise. *)
Lemma run_urls_baseline urls w :
  ∃ ticks,
    let ws := sampled w (urls ≫= replicate default_runs) ticks in
    let results := snapshots_of urls w in
    run_urls true urls w =
      match results, baselineDir w with
      | [], _ => (Exited 1, ws)
      | _ :: _, None => (Thrown "ENOENT", ws)
      | _ :: _, Some files =>
          (ended (rejection BaselineDir snapshot_file results),
           set_dir BaselineDir (save_all (saved BaselineDir results) files) ws)
      end.
Proof.
  destruct (run_urls_spec true urls w) as (ticks & _ & ->).
  exists ticks. cbv zeta. set (ws := sampled w _ ticks).
  destruct (snapshots_of urls w) as [|r rs]; [done|].
  rewrite saveResults_spec. cbv zeta.
  unfold ws at 1. rewrite dir_of_sampled. cbn [dir_of].
  by destruct (baselineDir w).
Qed.

(** A run in normal mode: exit 1 without a snapshot; otherwise the
    saving of the snapshots in [latest/] and, when all are saved, the
    writing of their pages in [reports/]. *)
Lemma run_urls_normal urls w :
  ∃ ticks,
    let ws := sampled w (urls ≫= replicate default_runs) ticks in
    let results := snapshots_of urls w in
    run_urls false urls w =
      match results, latestDir w with
      | [], _ => (Exited 1, ws)
      | _ :: _, None => (Thrown "ENOENT", ws)
      | _ :: _, Some latest =>
          let ws1 :=
            set_dir LatestDir (save_all (saved LatestDir results) latest) ws in
          match rejection LatestDir snapshot_file results, reportsDir w with
          | Some error, _ => (Thrown error, ws1)
          | None, None => (Thrown "ENOENT", ws1)
          | None, Some reports =>
              (ended (rejection ReportsDir (report_file w) results),
               set_dir ReportsDir (report_all (reported w results) w reports)
                 ws1)
          end
      end.
Proof.
  destruct (run_urls_spec false urls w) as (ticks & _ & ->).
  exists ticks. cbv zeta. set (ws := sampled w _ ticks).
  destruct (snapshots_of urls w) as [|r rs]; [done|].
  rewrite bind_run, saveResults_spec. cbv zeta.
  unfold ws at 1. rewrite dir_of_sampled. cbn [dir_of].
  destruct (latestDir w) as [latest|]; [|done].
  destruct (rejection LatestDir snapshot_file (r :: rs)) as [e|]; [done|].
  cbn [ended].
  rewrite (generateReports_in (r :: rs) w (set_dir LatestDir _ ws))
    by reflexivity.
  change (reportsDir (set_dir LatestDir ?f ws)) with (reportsDir w).
  by destruct (reportsDir w).
Qed.

(** A file of [baseline/] or [latest/] after a run is as before the
    run, or it is the snapshot of one of the collected results, under
    the name of its URL. *)
Lemma run_urls_files updateBaseline urls w d name :
  d ≠ ReportsDir →
  file_at d name (run_urls updateBaseline urls w).2 = file_at d name w
  ∨ ∃ r, r ∈ snapshots_of urls w
         ∧ name = urlToFilename (Snapshot.url r)
         ∧ file_at d name (run_urls updateBaseline urls w).2
           = Some (JSON_stringify r).
Proof.
  intros Hd.
  destruct (run_urls_spec updateBaseline urls w) as (ticks & _ & ->).
  cbv zeta. set (ws := sampled w _ ticks).
  assert (∀ n, file_at d n ws = file_at d n w) as Hws
    by (intros; apply file_at_sampled).
  destruct (snapshots_of urls w) as [|r0 rs] eqn:Hresults; [by left|].
  rewrite <- Hresults. set (results := snapshots_of urls w) in *.
  assert (∀ isBaseline,
            file_at d name (saveResults results isBaseline ws).2
              = file_at d name w
            ∨ ∃ r, r ∈ results ∧ name = urlToFilename (Snapshot.url r)
                   ∧ file_at d name (saveResults results isBaseline ws).2
                     = Some (JSON_stringify r)) as Hsave
    by (intros b; rewrite <- Hws; apply saveResults_files).
  destruct updateBaseline; [apply Hsave|].
  rewrite bind_run. specialize (Hsave false).
  destruct (saveResults results false ws) as [[[]|e|c] w1]; [|done..].
  pose proof (generateReports_frame results w1) as [Hb Hl].
  assert (file_at d name (generateReports results w1).2 = file_at d name w1)
    as -> by (unfold file_at; destruct d; cbn [dir_of];
              [by rewrite Hb|by rewrite Hl|done]).
  exact Hsave.
Qed.
End Run.

(** C5. Sampling a URL runs the Scorer exactly [runs] times, one after
    the other (3 times by default); the samples it keeps are those of the
    successful runs, in order, a failed run being neither retried nor
    replaced; and when exactly one of three runs fails the snapshot counts
    2 runs and its scores are the rounded means of the two samples
    obtained. *)
Theorem sampling_runs_scorer_runs_times `{!Host} (url : string) (w : World) :
  default_runs = 3%nat
  ∧ (∀ runs : nat,
       let ss :=
         successful_runs url runs (length (lighthouse_calls w)) (clock w) in
       lighthouse_calls (runMultipleLighthouse url runs w).2
         = lighthouse_calls w ++ replicate runs url
       ∧ (length ss ≤ runs)%nat
       ∧ (runMultipleLighthouse url runs w).1
         = Returned (match ss with
                     | [] => None
                     | _ :: _ =>
                         Some (averaged url ss
                                 (toISOString (clock w + length ss)))
                     end))
  ∧ (let r1 := runLighthouse url w in
     let r2 := runLighthouse url r1.2 in
     let r3 := runLighthouse url r2.2 in
     length (List.filter failed [r1.1; r2.1; r3.1]) = 1%nat →
     ∃ s1 s2 snapshot,
       omap sample_from [r1.1; r2.1; r3.1] = [s1; s2]
       ∧ (runMultipleLighthouse url 3 w).1 = Returned (Some snapshot)
       ∧ Snapshot.runs snapshot = 2%nat
       ∧ Snapshot.rawResults snapshot = [s1; s2]
       ∧ ∀ c, nearest_half_up
                (js_div (Sample.get c s1 + Sample.get c s2) 2)
                (Snapshot.get c snapshot)).
Proof.
  split; [reflexivity|]. split.
  - intros runs. cbv zeta. rewrite runMultipleLighthouse_spec. cbv zeta.
    pose proof (successful_runs_length url runs
                  (length (lighthouse_calls w)) (clock w)) as Hlen.
    by destruct (successful_runs _ _ _ _).
  - cbv zeta. rewrite runMultipleLighthouse_spec.
    rewrite !runLighthouse_scorer. cbv zeta. cbn [fst snd].
    cbn [successful_runs sampled lighthouse_calls clock].
    rewrite !length_app. cbn [length]. rewrite !Nat.add_1_r.
    destruct (scorer (length (lighthouse_calls w)) (clock w) url) as [s1|];
      cbn [lighthouse_calls clock sampled].
    + rewrite !Nat.add_1_r.
      destruct (scorer (S _) (S _) url) as [s2|];
        cbn [lighthouse_calls clock sampled].
      * rewrite !Nat.add_1_r.
        destruct (scorer (S (S _)) (S (S _)) url) as [s3|]; [done|].
        intros _. eexists s1, s2, _. repeat (split; [reflexivity|]).
        intros c. rewrite averaged_get. unfold rounded_mean, reduce_sum.
        apply Math_round_nearest.
      * rewrite !Nat.add_0_r.
        destruct (scorer (S (S _)) (S _) url) as [s3|]; [|done].
        intros _. eexists s1, s3, _. repeat (split; [reflexivity|]).
        intros c. rewrite averaged_get. unfold rounded_mean, reduce_sum.
        apply Math_round_nearest.
    + rewrite !Nat.add_0_r.
      destruct (scorer (S _) _ url) as [s2|];
        cbn [lighthouse_calls clock sampled]; [|done].
      rewrite !Nat.add_1_r.
      destruct (scorer (S (S _)) (S _) url) as [s3|]; [|done].
      intros _. eexists s2, s3, _. repeat (split; [reflexivity|]).
      intros c. rewrite averaged_get. unfold rounded_mean, reduce_sum.
      apply Math_round_nearest.
Qed.

Lemma sampling_runs_scorer_runs_times_witness :
  ∃ snapshot,
    (runMultipleLighthouse (H := Demo.host_80_fail_100)
       "https://example.com/" 3 Demo.empty_world).1
      = Returned (Some snapshot)
    ∧ Snapshot.runs snapshot = 2%nat
    ∧ nearest_half_up (js_div (80 + 100) 2) (Snapshot.performance snapshot).
Proof.
  destruct (proj2 (proj2 (sampling_runs_scorer_runs_times
                            (H := Demo.host_80_fail_100)
                            "https://example.com/" Demo.empty_world)))
    as (s1 & s2 & snapshot & Hsamples & Hrun & Hruns & _ & Hmean);
    [reflexivity|].
  exists snapshot. split; [exact Hrun|]. split; [exact Hruns|].
  injection Hsamples as <- <-. apply (Hmean Performance).
Defined.



(** C7, as stated, fails: a run in which the URL produced a snapshot,
    saved it in [latest/], and that exits with status 1, the directory
    [reports/] being absent. *)
Lemma nonzero_exit_with_a_snapshot :
  ¬ (exit_status (run_urls (H := Demo.host_80_90_100) false
                    ["https://example.com/"] Demo.no_reports_world).1 ≠ 0
     ↔ snapshots_of (H := Demo.host_80_90_100)
         ["https://example.com/"] Demo.no_reports_world = []).
Proof.
  intros [Hexit _]. discriminate Hexit. vm_compute. discriminate.
Qed.

Example snapshot_saved_and_exit_1 :
  let r := run_urls (H := Demo.host_80_90_100) false
             ["https://example.com/"] Demo.no_reports_world in
  r.1 = Thrown "ENOENT"
  ∧ exit_status r.1 = 1
  ∧ file_at LatestDir "example-com-.json" r.2
    = Some "https://example.com/ runs:3 P:90 A:70 BP:70 SEO:70".
Proof. repeat split. Qed.

(** A failed write with the three directories present, here in
    baseline-update mode: the key of a URL of 300 characters is over the
    longest file name of the file system, the snapshot is collected, its
    file is rejected, nothing is written and the run exits with status
    1. *)
Example snapshot_rejected_and_exit_1 :
  let r := run_urls (H := Demo.host_80_90_100) true [Demo.long_url]
             Demo.empty_world in
  snapshots_of (H := Demo.host_80_90_100) [Demo.long_url] Demo.empty_world
    = [averaged Demo.long_url Demo.samples "T+3"]
  ∧ r.1 = Thrown "ENAMETOOLONG"
  ∧ exit_status r.1 = 1
  ∧ baselineDir r.2 = Some ∅.
Proof. by vm_compute. Qed.

(** C7, amended. A run in which no URL produced a snapshot exits with
    status 1; and when every write of the run succeeds (the snapshot
    files in [baseline/] in baseline-update mode; the snapshot files in
    [latest/] and the pages in [reports/] otherwise), the exit status is
    non-zero if and only if no URL produced a snapshot: with at least one
    snapshot it is 0, whatever the number of URLs whose sampling failed.
    The proviso cannot be dropped: with a snapshot and a write that fails,
    the exit status is 1. *)
Theorem nonzero_exit_iff_no_snapshot `{!Host}
    (updateBaseline : bool) (urls : list string) (w : World) :
  let results := snapshots_of urls w in
  let status := exit_status (run_urls updateBaseline urls w).1 in
  (results = [] → status = 1)
  ∧ (writable updateBaseline results w →
     (status ≠ 0 ↔ results = []) ∧ (results ≠ [] → status = 0))
  ∧ (results ≠ [] → ¬ writable updateBaseline results w → status = 1).
Proof.
  cbv zeta.
  assert (snapshots_of urls w = []
          → exit_status (run_urls updateBaseline urls w).1 = 1) as Hnone.
  { intros Hnone.
    destruct (run_urls_spec updateBaseline urls w) as (ticks & _ & ->).
    cbv zeta. by rewrite Hnone. }
  split; [exact Hnone|]. split.
  - intros Hw.
    assert (snapshots_of urls w ≠ []
            → exit_status (run_urls updateBaseline urls w).1 = 0) as Hok.
    { intros Hne. destruct updateBaseline.
      - destruct Hw as [[files Hfiles] Hsave].
        apply rejection_None in Hsave.
        destruct (run_urls_baseline urls w) as (ticks & ->). cbv zeta.
        rewrite Hfiles, Hsave. by destruct (snapshots_of urls w).
      - destruct Hw as ([latest Hlatest] & Hsave & [reports Hreports] & Hpages).
        apply rejection_None in Hsave, Hpages.
        destruct (run_urls_normal urls w) as (ticks & ->). cbv zeta.
        rewrite Hlatest, Hreports, Hsave, Hpages.
        by destruct (snapshots_of urls w). }
    split; [|exact Hok]. split.
    + intros Hstatus.
      assert (snapshots_of urls w = [] ∨ snapshots_of urls w ≠ [])
        as [Hnil|Hne] by (destruct (snapshots_of urls w); [by left|by right]);
        [exact Hnil|].
      destruct Hstatus. by apply Hok.
    + intros Hnil. by rewrite (Hnone Hnil).
  - intros Hne Hnw. destruct updateBaseline.
    + destruct (run_urls_baseline urls w) as (ticks & ->). cbv zeta.
      destruct (snapshots_of urls w) as [|r rs] eqn:Hresults; [done|].
      destruct (baselineDir w) as [files|] eqn:Hfiles; [|done].
      destruct (rejection BaselineDir snapshot_file (r :: rs)) as [e|] eqn:Hsave;
        [done|].
      destruct Hnw. split; [by eexists|]. by apply rejection_None.
    + destruct (run_urls_normal urls w) as (ticks & ->). cbv zeta.
      destruct (snapshots_of urls w) as [|r rs] eqn:Hresults; [done|].
      destruct (latestDir w) as [latest|] eqn:Hlatest; [|done].
      destruct (rejection LatestDir snapshot_file (r :: rs)) as [e|] eqn:Hsave;
        [done|].
      destruct (reportsDir w) as [reports|] eqn:Hreports; [|done].
      destruct (rejection ReportsDir (report_file w) (r :: rs)) as [e|] eqn:Hpages;
        [done|].
      destruct Hnw. split; [by eexists|]. split; [by apply rejection_None|].
      split; [by eexists|by apply rejection_None].
Qed.

Lemma nonzero_exit_iff_no_snapshot_witness :
  writable (H := Demo.host_down_then_up) false
    [averaged "https://example.com/" Demo.samples "T+3"] Demo.empty_world
  ∧ exit_status (run_urls (H := Demo.host_down_then_up) false
                   ["https://down.example/"; "https://example.com/"]
                   Demo.empty_world).1 = 0.
Proof.
  assert (snapshots_of (H := Demo.host_down_then_up)
            ["https://down.example/"; "https://example.com/"] Demo.empty_world
          = [averaged "https://example.com/" Demo.samples "T+3"]) as Hresults
    by reflexivity.
  assert (writable (H := Demo.host_down_then_up) false
            [averaged "https://example.com/" Demo.samples "T+3"]
            Demo.empty_world) as Hw.
  { split; [eexists; reflexivity|].
    split; [by intros r ->%list_elem_of_singleton|].
    split; [eexists; reflexivity|by intros r ->%list_elem_of_singleton]. }
  split; [exact Hw|].
  apply (proj1 (proj2 (nonzero_exit_iff_no_snapshot (H := Demo.host_down_then_up)
                         false ["https://down.example/"; "https://example.com/"]
                         Demo.empty_world))).
  - rewrite Hresults. exact Hw.
  - rewrite Hresults. discriminate.
Defined.

(** C8, as stated, fails: a run in baseline-update mode that aggregates
    the snapshot of its URL and writes it nowhere, the directory
    [baseline/] being absent. *)
Lemma baseline_mode_snapshot_not_written :
  ¬ (∀ r,
       r ∈ snapshots_of (H := Demo.host_80_90_100) ["https://example.com/"]
             Demo.no_baseline_world →
       file_at BaselineDir (urlToFilename (Snapshot.url r))
         (run_urls (H := Demo.host_80_90_100) true ["https://example.com/"]
            Demo.no_baseline_world).2
       = Some (@JSON_stringify Demo.host_80_90_100 r)).
Proof.
  intros Hwritten.
  assert (snapshots_of (H := Demo.host_80_90_100) ["https://example.com/"]
            Demo.no_baseline_world
          = [averaged "https://example.com/" Demo.samples "T+3"]) as Hresults
    by reflexivity.
  rewrite Hresults in Hwritten.
  specialize (Hwritten _ ltac:(left)). discriminate Hwritten.
Qed.

(** C8, amended. In baseline-update mode the run leaves [latest/] and
    [reports/] as they were (no latest snapshot, no report); every file of
    [baseline/] that it changes holds one of the collected snapshots,
    under the name of its URL; and when every write of the run succeeds
    ([baseline/] exists and the file system takes each snapshot file),
    [baseline/] receives the collected snapshots one by one, each under
    the name of its URL: after the run a snapshot is in the baseline file
    of its URL, unless a later snapshot of the run has the same file
    name. *)
Theorem baseline_mode_writes_baseline_only `{!Host}
    (urls : list string) (w : World) :
  let results := snapshots_of urls w in
  let final := (run_urls true urls w).2 in
  latestDir final = latestDir w
  ∧ reportsDir final = reportsDir w
  ∧ (∀ name,
       file_at BaselineDir name final ≠ file_at BaselineDir name w →
       ∃ r, r ∈ results ∧ name = urlToFilename (Snapshot.url r)
            ∧ file_at BaselineDir name final = Some (JSON_stringify r))
  ∧ (writable true results w →
     baselineDir final = save_all results <$> baselineDir w
     ∧ ∀ r, r ∈ results →
            (∀ r', r' ∈ results →
                   urlToFilename (Snapshot.url r')
                   = urlToFilename (Snapshot.url r) →
                   r' = r) →
            file_at BaselineDir (urlToFilename (Snapshot.url r)) final
              = Some (JSON_stringify r)).
Proof.
  cbv zeta.
  assert (latestDir (run_urls true urls w).2 = latestDir w
          ∧ reportsDir (run_urls true urls w).2 = reportsDir w
          ∧ (writable true (snapshots_of urls w) w →
             baselineDir (run_urls true urls w).2
             = save_all (snapshots_of urls w) <$> baselineDir w))
    as (Hl & Hr & Hb).
  { destruct (run_urls_baseline urls w) as (ticks & ->). cbv zeta.
    destruct (snapshots_of urls w) as [|r rs] eqn:Hresults.
    { split; [done|]. split; [done|]. intros _. simpl.
      by destruct (baselineDir w). }
    destruct (baselineDir w) as [files|] eqn:Hfiles.
    - split; [done|]. split; [done|]. intros [_ Hsave].
      unfold saved. by rewrite (accepted_prefix_all _ _ _ Hsave).
    - split; [done|]. split; [done|]. by intros [[? [=]] _]. }
  split; [done|]. split; [done|]. split.
  - intros name Hchanged.
    by destruct (run_urls_files true urls w BaselineDir name)
      as [Hsame|Hsaved].
  - intros Hw. split; [by apply Hb|].
    intros r Hin Huniq. pose proof Hw as [[files Hfiles] _].
    unfold file_at. simpl dir_of. rewrite (Hb Hw), Hfiles. simpl.
    by apply save_all_lookup_in.
Qed.

Lemma baseline_mode_writes_baseline_only_witness :
  file_at BaselineDir (urlToFilename "https://example.com/")
    (run_urls (H := Demo.host_80_90_100) true ["https://example.com/"]
       Demo.empty_world).2
  = Some "https://example.com/ runs:3 P:90 A:70 BP:70 SEO:70".
Proof.
  assert (snapshots_of (H := Demo.host_80_90_100) ["https://example.com/"]
            Demo.empty_world
          = [averaged "https://example.com/" Demo.samples "T+3"]) as Hresults
    by reflexivity.
  apply (proj2 (proj2 (proj2 (proj2 (baseline_mode_writes_baseline_only
                                       (H := Demo.host_80_90_100)
                                       ["https://example.com/"]
                                       Demo.empty_world)))
                 ltac:(rewrite Hresults; split;
                       [eexists; reflexivity
                       |by intros r ->%list_elem_of_singleton]))
           (averaged "https://example.com/" Demo.samples "T+3")).
  - rewrite Hresults. left.
  - intros r' Hr' _. rewrite Hresults in Hr'.
    apply list_elem_of_singleton in Hr'. exact Hr'.
Defined.

(** * Beyond the specification *)

(** ** File names *)

Lemma dashify_chars (s : string) :
  Forall alnum_or_dash (list_ascii_of_string (dashify s)).
Proof.
  induction s as [|c s IH]; simpl; [constructor|].
  constructor; [|exact IH].
  unfold alnum_or_dash. destruct (is_alnum c) eqn:Hc; [by left|by right].
Qed.

Lemma prefix_json_false (c : ascii) (s : string) :
  alnum_or_dash c → String.prefix ".json" (String c s) = false.
Proof.
  intros Hc.
  change (String.prefix ".json" (String c s))
    with (if ascii_dec "." c then String.prefix "json" s else false).
  destruct (ascii_dec "." c) as [<-|Hne]; [|done].
  destruct Hc as [Hc|Hc]; [by vm_compute in Hc|discriminate Hc].
Qed.

Lemma replace_first_json_suffix (stem : string) :
  Forall alnum_or_dash (list_ascii_of_string stem) →
  replace_first ".json" ".html" (stem ++ ".json") = (stem ++ ".html")%string.
Proof.
  induction stem as [|c stem IH]; intros Hstem; [reflexivity|].
  simpl in Hstem. apply Forall_cons in Hstem as [Hc Hstem].
  change ((String c stem ++ ".json")%string)
    with (String c (stem ++ ".json")%string).
  unfold replace_first; fold replace_first.
  rewrite prefix_json_false by done. by rewrite IH.
Qed.

(** X1. The file name made from a URL is a stem of letters, digits and
    dashes followed by [.json], the stem having one character for each
    character of the URL once its first [http://] or [https://], wherever
    it stands, is removed: whatever the URL, the name holds no path
    separator and no dot but the one of the extension, so that the file
    lies directly in its directory. *)
Theorem urlToFilename_flat (url : string) :
  ∃ stem,
    urlToFilename url = (stem ++ ".json")%string
    ∧ String.length stem = String.length (strip_scheme url)
    ∧ Forall alnum_or_dash (list_ascii_of_string stem)
    ∧ ¬ In "/"%char (list_ascii_of_string (urlToFilename url)).
Proof.
  exists (dashify (strip_scheme url)). split; [reflexivity|].
  split; [|split; [apply dashify_chars|]].
  - induction (strip_scheme url) as [|c s IH]; simpl; [done|by rewrite IH].
  - unfold urlToFilename. intros Hin.
    assert (∀ a b, list_ascii_of_string (a ++ b)
                   = list_ascii_of_string a ++ list_ascii_of_string b)
      as Happ by (intros a b; induction a; simpl; [done|by f_equal]).
    rewrite Happ in Hin. apply in_app_or in Hin as [Hin|Hin].
    + pose proof (dashify_chars (strip_scheme url)) as Hall.
      rewrite List.Forall_forall in Hall. apply Hall in Hin as [Hc|Hc];
        [by vm_compute in Hc|discriminate Hc].
    + simpl in Hin. intuition discriminate.
Qed.

(** X2. The scheme does not count: a URL with [http://] and the same URL
    with [https://] have the same file name, that of what follows the
    scheme. *)
Theorem urlToFilename_ignores_scheme (rest : string) :
  urlToFilename ("http://" ++ rest) = (dashify rest ++ ".json")%string
  ∧ urlToFilename ("https://" ++ rest) = (dashify rest ++ ".json")%string.
Proof.
  assert (∀ s, String.prefix "" s = true) as Hnil by (by intros []).
  unfold urlToFilename. split.
  - simpl. rewrite Hnil. reflexivity.
  - simpl. rewrite Hnil. reflexivity.
Qed.

(** X3. The name of a report page is the name of the snapshot file with
    [.html] in the place of [.json]: the replacement of the first [.json]
    always hits the extension. *)
Theorem report_filename_is_stem_html (url : string) :
  replace_first ".json" ".html" (urlToFilename url)
  = (dashify (strip_scheme url) ++ ".html")%string.
Proof. apply replace_first_json_suffix, dashify_chars. Qed.

(** ** The scorer and the sampler *)

Section Scorer.
Context `{!Host}.

(** X4. One Scorer invocation never throws and never ends the process: it
    returns a sample or [null], logs one Lighthouse invocation and leaves
    every directory alone.  It returns [null] exactly when the command
    fails, when its output does not parse, or when the report has no
    [categories]. *)
Theorem runLighthouse_catches_everything (url : string) (w : World) :
  ∃ o w',
    runLighthouse url w = (Returned o, w')
    ∧ lighthouse_calls w' = lighthouse_calls w ++ [url]
    ∧ (∀ d, dir_of d w' = dir_of d w)
    ∧ (o = None ↔
       lighthouse (length (lighthouse_calls w)) url = None
       ∨ ∃ stdout,
           lighthouse (length (lighthouse_calls w)) url = Some stdout
           ∧ (JSON_parse_report stdout = None
              ∨ ∃ result, JSON_parse_report stdout = Some result
                          ∧ Report.cats result = None)).
Proof.
  rewrite runLighthouse_scorer. cbv zeta. eexists _, _.
  split; [reflexivity|]. split; [reflexivity|].
  split; [intros d; apply dir_of_sampled|].
  unfold scorer.
  destruct (lighthouse _ url) as [stdout|]; simpl; [|by split; [left|]].
  destruct (JSON_parse_report stdout) as [result|] eqn:Hparse; simpl.
  - destruct (Report.cats result) as [categories|] eqn:Hcats; simpl.
    + split; [done|].
      intros [?|(out & [= <-] & [?|(res & ? & ?)])]; [done|congruence|].
      congruence.
    + split; [|done]. intros _. right. exists stdout. split; [done|].
      right. by exists result.
  - split; [|done]. intros _. right. exists stdout. split; [done|by left].
Qed.

Lemma successful_runs_Forall (P : Sample.t → Prop) url runs n t :
  (∀ n t s, scorer n t url = Some s → P s) →
  Forall P (successful_runs url runs n t).
Proof.
  intros HP. revert n t. induction runs as [|k IH]; intros n t; simpl;
    [constructor|].
  destruct (scorer n t url) as [s|] eqn:Hs; [|apply IH].
  constructor; [by eapply HP|apply IH].
Qed.

(** X5. Sampling never throws and writes no file.  With no run at all it
    yields [null] without invoking Lighthouse.  A snapshot it yields
    carries the URL, counts between 1 and [runs] runs, stores exactly that
    many raw results, and each of its scores is the rounded mean of the
    raw results stored with it. *)
Theorem runMultipleLighthouse_snapshot (url : string) (runs : nat) (w : World) :
  ∃ o w',
    runMultipleLighthouse url runs w = (Returned o, w')
    ∧ (∀ d, dir_of d w' = dir_of d w)
    ∧ (runs = 0%nat → o = None ∧ w' = w)
    ∧ ∀ s, o = Some s →
           Snapshot.url s = url
           ∧ (1 ≤ Snapshot.runs s ≤ runs)%nat
           ∧ length (Snapshot.rawResults s) = Snapshot.runs s
           ∧ ∀ c, Snapshot.get c s
                  = rounded_mean (Sample.get c) (Snapshot.rawResults s).
Proof.
  rewrite runMultipleLighthouse_spec. cbv zeta.
  pose proof (successful_runs_length url runs
                (length (lighthouse_calls w)) (clock w)) as Hlen.
  destruct (successful_runs _ _ _ _) as [|s0 ss] eqn:Hss.
  - eexists _, _. split; [reflexivity|].
    split; [intros d; apply dir_of_sampled|].
    split; [intros ->; split; [done|apply sampled_0]|done].
  - eexists _, _. split; [reflexivity|].
    split; [intros d; apply dir_of_sampled|].
    split; [intros ->; simpl in Hlen; lia|].
    intros s [= <-]. split; [done|]. split; [simpl in *; lia|].
    split; [done|]. intros c. apply averaged_get.
Qed.
End Scorer.

Lemma runMultipleLighthouse_snapshot_witness :
  ∃ s,
    (runMultipleLighthouse (H := Demo.host_80_fail_100) "https://example.com/"
       3 Demo.empty_world).1 = Returned (Some s)
    ∧ Snapshot.url s = "https://example.com/"
    ∧ (1 ≤ Snapshot.runs s ≤ 3)%nat
    ∧ (runMultipleLighthouse (H := Demo.host_80_fail_100)
         "https://example.com/" 0 Demo.empty_world).1 = Returned None.
Proof.
  destruct (runMultipleLighthouse_snapshot (H := Demo.host_80_fail_100)
              "https://example.com/" 3 Demo.empty_world)
    as (o & w' & Hrun & _ & _ & Hsnap).
  destruct (runMultipleLighthouse_snapshot (H := Demo.host_80_fail_100)
              "https://example.com/" 0 Demo.empty_world)
    as (o0 & w0 & Hrun0 & _ & Hzero & _).
  destruct (Hzero eq_refl) as [-> ->].
  assert (o = Some (averaged "https://example.com/"
                      [Sample.mk 80 70 70 70 "T+0"; Sample.mk 100 70 70 70 "T+1"]
                      "T+2")) as Ho.
  { assert ((runMultipleLighthouse (H := Demo.host_80_fail_100)
               "https://example.com/" 3 Demo.empty_world).1
            = Returned (Some (averaged "https://example.com/"
                      [Sample.mk 80 70 70 70 "T+0"; Sample.mk 100 70 70 70 "T+1"]
                      "T+2"))) as Hval by reflexivity.
    rewrite Hrun in Hval. simpl in Hval. congruence. }
  destruct (Hsnap _ Ho) as (Hurl & Hruns & _).
  eexists. rewrite Hrun, Hrun0, Ho. split; [reflexivity|].
  split; [exact Hurl|]. split; [exact Hruns|reflexivity].
Defined.

(** ** Ranges *)

Lemma Math_round_percent (q : Q) :
  (0 <= q <= 1)%Q → 0 ≤ Math_round (q * 100) ≤ 100.
Proof.
  intros [H0 H1]. unfold Math_round.
  assert (Qfloor (1 # 2) ≤ Qfloor (q * 100 + (1 # 2))) as Hlo
    by (apply Qfloor_resp_le; lra).
  assert (Qfloor (q * 100 + (1 # 2)) ≤ Qfloor (100 + (1 # 2))) as Hhi
    by (apply Qfloor_resp_le; lra).
  change (Qfloor (1 # 2)) with 0 in Hlo.
  change (Qfloor (100 + (1 # 2))) with 100 in Hhi.
  by split.
Qed.

Lemma or_zero_unit (x : option Q) :
  (∀ q, x = Some q → (0 <= q <= 1)%Q) → (0 <= or_zero x <= 1)%Q.
Proof.
  intros Hx. destruct x as [q|]; simpl; [|lra].
  destruct (Qeq_bool q 0); [lra|by apply Hx].
Qed.

Section Ranges.
Context `{!Host}.

Lemma scorer_valid n t url s :
  unit_scores → scorer n t url = Some s → valid_sample s.
Proof.
  intros Hunit. unfold scorer.
  destruct (lighthouse n url) as [stdout|]; [|done]. simpl.
  destruct (JSON_parse_report stdout) as [result|] eqn:Hparse; [|done]. simpl.
  destruct (Report.cats result) as [categories|] eqn:Hcats; [|done]. simpl.
  intros [= <-] c.
  assert (Sample.get c (sample_of categories (toISOString t))
          = score100 (Report.get c categories)) as -> by by destruct c.
  unfold score100. apply Math_round_percent, or_zero_unit.
  intros q Hq. destruct (Report.get c categories) as [category|] eqn:Hget;
    [|done].
  simpl in Hq. by eapply Hunit.
Qed.

(** X6. When Lighthouse reports scores between 0 and 1, every score of a
    snapshot that sampling yields is an integer of 0..100, and the delta
    of such a snapshot against a baseline of that range lies in
    -100..100 in every category. *)
Theorem scores_stay_in_range (url : string) (runs : nat) (w : World)
    (s : Snapshot.t) :
  unit_scores →
  (runMultipleLighthouse url runs w).1 = Returned (Some s) →
  valid_scores s
  ∧ ∀ baseline delta,
      valid_scores baseline →
      calculateDelta s (Some baseline) = Some delta →
      ∀ c, -100 ≤ Delta.get c delta ≤ 100.
Proof.
  intros Hunit Hrun.
  assert (valid_scores s) as Hs.
  { rewrite runMultipleLighthouse_spec in Hrun. cbv zeta in Hrun.
    pose proof (successful_runs_Forall valid_sample url runs
                  (length (lighthouse_calls w)) (clock w)
                  (λ n t s', scorer_valid n t url s' Hunit)) as Hall.
    destruct (successful_runs _ _ _ _) as [|s0 ss]; [done|].
    injection Hrun as <-. intros c. rewrite averaged_get.
    apply rounded_mean_bounds; [done|].
    intros x Hx. rewrite Forall_forall in Hall. by apply Hall. }
  split; [exact Hs|].
  intros baseline delta Hb [= <-] c.
  specialize (Hs c). specialize (Hb c). destruct c; simpl in *; lia.
Qed.
End Ranges.

Lemma demo_unit_scores outputs stored :
  unit_scores (H := Demo.host outputs stored).
Proof.
  intros text result categories c category q Hparse Hcats Hget Hscore.
  change (JSON_parse_report text)
    with (snd <$> find (λ d, String.eqb d.1 text) Demo.reports) in Hparse.
  destruct (find _ Demo.reports) as [[name r]|] eqn:Hfind; [|done].
  apply find_some in Hfind as [Hin _]. injection Hparse as ->.
  unfold Demo.reports in Hin. cbn in Hin.
  repeat (destruct Hin as [[= <- <-]|Hin];
          [cbn in Hcats; try discriminate; injection Hcats as <-;
           destruct c; cbn in Hget; try discriminate; injection Hget as <-;
           cbn in Hscore; try discriminate; injection Hscore as <-;
           split; discriminate|]).
  destruct Hin.
Qed.

Lemma scores_stay_in_range_witness :
  valid_scores (averaged "https://example.com/"
                  [Sample.mk 80 70 70 70 "T+0"; Sample.mk 100 70 70 70 "T+1"]
                  "T+2").
Proof.
  apply (scores_stay_in_range (H := Demo.host_80_fail_100)
           "https://example.com/" 3 Demo.empty_world).
  - apply demo_unit_scores.
  - reflexivity.
Defined.

(** ** The run, beyond its exit status *)

(** Reads the directories of a world built from another. *)
Ltac reduce_world :=
  cbn [fst snd set_dir sampled baselineDir latestDir reportsDir
       fmap option_fmap option_map].

Section RunEffects.
Context `{!Host}.

(** X7. In normal mode a run never changes [baseline/].  [latest/], when
    it exists, receives the collected snapshots in order, each under the
    name of its URL, up to the first file the file system rejects.  The
    pages are written only once every snapshot is saved: [reports/], when
    it exists, then receives one page per snapshot, again up to the first
    rejected file, each rendered from the snapshot, the baseline stored
    for its URL before the run and the delta between the two; otherwise
    [reports/] stays as it was.  When every write succeeds, [latest/]
    holds every snapshot and [reports/] the page of every snapshot. *)
Theorem normal_mode_effects (urls : list string) (w : World) :
  let results := snapshots_of urls w in
  let final := (run_urls false urls w).2 in
  baselineDir final = baselineDir w
  ∧ latestDir final = save_all (saved LatestDir results) <$> latestDir w
  ∧ (is_Some (latestDir w) → accepted LatestDir snapshot_file results →
     reportsDir final = report_all (reported w results) w <$> reportsDir w)
  ∧ (latestDir w = None ∨ ¬ accepted LatestDir snapshot_file results →
     reportsDir final = reportsDir w)
  ∧ (writable false results w →
     latestDir final = save_all results <$> latestDir w
     ∧ reportsDir final = report_all results w <$> reportsDir w).
Proof.
  cbv zeta. unfold writable.
  destruct (run_urls_normal urls w) as (ticks & ->). cbv zeta.
  destruct (snapshots_of urls w) as [|r rs] eqn:Hresults.
  { reduce_world.
    split; [done|]. split; [by destruct (latestDir w)|].
    split; [intros _ _; by destruct (reportsDir w)|]. split; [done|].
    intros _. split; [by destruct (latestDir w)|by destruct (reportsDir w)]. }
  destruct (latestDir w) as [latest|] eqn:Hlatest.
  2: { reduce_world. rewrite Hlatest.
       split; [done|]. split; [done|]. split; [by intros [? [=]]|].
       split; [done|]. by intros ([? [=]] & _). }
  destruct (rejection LatestDir snapshot_file (r :: rs)) as [e|] eqn:Hsave.
  { assert (¬ accepted LatestDir snapshot_file (r :: rs)) as Hrejected
      by (intros Hall%rejection_None; congruence).
    reduce_world.
    split; [done|]. split; [done|]. split; [done|]. split; [done|].
    by intros (_ & ? & _). }
  apply rejection_None in Hsave.
  destruct (reportsDir w) as [reports|] eqn:Hreports.
  - reduce_world. split; [done|]. split; [done|]. split; [done|].
    split; [by intros [[=]|?]|].
    intros (_ & _ & _ & Hpages). unfold saved, reported.
    by rewrite !accepted_prefix_all.
  - reduce_world. rewrite Hreports.
    split; [done|]. split; [done|]. split; [done|].
    split; [done|]. by intros (_ & _ & [? [=]] & _).
Qed.

(** X8. A snapshot saved as baseline is read back as it was: after a run
    in baseline-update mode all of whose writes succeed, [loadBaseline] on
    the URL of a collected snapshot returns that snapshot, provided no
    other snapshot of the run shares its file name and [JSON.parse] undoes
    [JSON.stringify] on it; a snapshot with the same scores then has a
    delta of zero in every category. *)
Theorem baseline_round_trip (urls : list string) (w : World) (r : Snapshot.t) :
  writable true (snapshots_of urls w) w →
  r ∈ snapshots_of urls w →
  (∀ r', r' ∈ snapshots_of urls w →
         urlToFilename (Snapshot.url r') = urlToFilename (Snapshot.url r) →
         r' = r) →
  JSON_parse_snapshot (JSON_stringify r) = Some r →
  let final := (run_urls true urls w).2 in
  loadBaseline (Snapshot.url r) final = (Returned (Some r), final)
  ∧ ∀ current,
      (∀ c, Snapshot.get c current = Snapshot.get c r) →
      ∃ delta, calculateDelta current (Some r) = Some delta
               ∧ ∀ c, Delta.get c delta = 0.
Proof.
  intros [[files Hfiles] Hsave] Hin Huniq Hparse. cbv zeta. split.
  - rewrite loadBaseline_spec. do 2 f_equal.
    destruct (run_urls_baseline urls w) as (ticks & ->). cbv zeta.
    rewrite Hfiles. unfold saved.
    rewrite (accepted_prefix_all _ _ _ Hsave).
    destruct (snapshots_of urls w) as [|r0 rs] eqn:Hresults;
      [by apply elem_of_nil in Hin|].
    rewrite <- Hresults in *.
    unfold stored_baseline, file_at. cbn [snd]. rewrite dir_of_set_dir. simpl.
    rewrite save_all_lookup_in by done. exact Hparse.
  - intros current Hsame. eexists. split; [reflexivity|].
    intros c. specialize (Hsame c). destruct c; simpl in *; lia.
Qed.

(** X9. A run invokes Lighthouse on every URL three times, in the order
    of the URLs, whether runs fail or succeed, in both modes, and also
    when saving fails afterwards. *)
Theorem run_invokes_lighthouse_thrice_per_url
    (updateBaseline : bool) (urls : list string) (w : World) :
  lighthouse_calls (run_urls updateBaseline urls w).2
  = lighthouse_calls w ++ (urls ≫= λ url, [url; url; url]).
Proof.
  assert (∀ ticks,
            lighthouse_calls (sampled w (urls ≫= replicate default_runs) ticks)
            = lighthouse_calls w ++ (urls ≫= λ url, [url; url; url])) as Hws
    by reflexivity.
  destruct updateBaseline.
  - destruct (run_urls_baseline urls w) as (ticks & ->). cbv zeta.
    destruct (snapshots_of urls w), (baselineDir w); cbn [snd];
      rewrite ?lighthouse_calls_set_dir; apply Hws.
  - destruct (run_urls_normal urls w) as (ticks & ->). cbv zeta.
    destruct (snapshots_of urls w) as [|r rs]; [apply Hws|].
    destruct (latestDir w); [|apply Hws].
    destruct (rejection LatestDir _ _), (reportsDir w); cbn [snd];
      rewrite ?lighthouse_calls_set_dir; apply Hws.
Qed.

(** X10. A run in which no URL yields a snapshot (the list of URLs is
    empty, or every run of every URL fails) ends the process with status
    1 and leaves the three directories as they were. *)
Theorem no_snapshot_no_change
    (updateBaseline : bool) (urls : list string) (w : World) :
  snapshots_of urls w = [] →
  (run_urls updateBaseline urls w).1 = Exited 1
  ∧ ∀ d, dir_of d (run_urls updateBaseline urls w).2 = dir_of d w.
Proof.
  intros Hnone.
  destruct (run_urls_spec updateBaseline urls w) as (ticks & _ & ->).
  cbv zeta. rewrite Hnone. split; [done|].
  intros d. apply dir_of_sampled.
Qed.
End RunEffects.

Lemma normal_mode_effects_witness :
  reportsDir (run_urls (H := Demo.host_80_90_100) false
                ["https://example.com/"] Demo.empty_world).2
  = Some {["example-com-.html" := "https://example.com/ delta P:N/A"]}.
Proof.
  assert (snapshots_of (H := Demo.host_80_90_100) ["https://example.com/"]
            Demo.empty_world
          = [averaged "https://example.com/" Demo.samples "T+3"]) as Hresults
    by reflexivity.
  etrans.
  - apply (proj2 (proj2 (proj2 (proj2 (normal_mode_effects
                                         (H := Demo.host_80_90_100)
                                         ["https://example.com/"]
                                         Demo.empty_world))))).
    rewrite Hresults. split; [eexists; reflexivity|].
    split; [by intros r ->%list_elem_of_singleton|].
    split; [eexists; reflexivity|by intros r ->%list_elem_of_singleton].
  - reflexivity.
Defined.

Lemma baseline_round_trip_witness :
  (loadBaseline (H := Tour.host_round_trip) "https://example.com/"
     (run_urls (H := Tour.host_round_trip) true ["https://example.com/"]
        Demo.empty_world).2).1
  = Returned (Some Tour.snapshot_90).
Proof.
  assert (snapshots_of (H := Tour.host_round_trip) ["https://example.com/"]
            Demo.empty_world = [Tour.snapshot_90]) as Hresults by reflexivity.
  destruct (baseline_round_trip (H := Tour.host_round_trip)
              ["https://example.com/"] Demo.empty_world Tour.snapshot_90)
    as [Hload _].
  - rewrite Hresults. split; [eexists; reflexivity|].
    by intros r ->%list_elem_of_singleton.
  - rewrite Hresults. left.
  - intros r' Hr' _. rewrite Hresults in Hr'.
    apply list_elem_of_singleton in Hr'. exact Hr'.
  - reflexivity.
  - cbv zeta in Hload. change (Snapshot.url Tour.snapshot_90)
      with "https://example.com/" in Hload.
    rewrite Hload. reflexivity.
Defined.

Lemma no_snapshot_no_change_witness :
  (run_urls (H := Demo.host_offline) true
     ["https://example.com/"; "https://redis.io/"] Demo.empty_world).1
  = Exited 1.
Proof.
  apply (no_snapshot_no_change (H := Demo.host_offline) true
           ["https://example.com/"; "https://redis.io/"] Demo.empty_world).
  reflexivity.
Defined.

(** ** The command line and the configuration *)

Section CommandLine.
Context `{!Host}.

Lemma findIndex_url_app (i : nat) (before rest : list string) (flag : string) :
  Forall (λ arg, String.prefix "--url" arg = false) before →
  String.prefix "--url" flag = true →
  findIndex_url i (before ++ flag :: rest) = Some (i + length before)%nat.
Proof.
  intros Hbefore Hflag. revert i.
  induction Hbefore as [|arg before Harg _ IH]; intros i; simpl.
  - rewrite Hflag. f_equal. lia.
  - rewrite Harg, IH. f_equal. lia.
Qed.

(** X11. The first argument that starts with [--url] makes the argument
    that follows it, whatever it is, the only URL of the run, provided
    that argument is not empty: urls.json is not read, and the run is the
    run on that one URL. *)
Theorem url_flag_takes_next_argument
    (before rest : list string) (flag value : string) (w : World) :
  Forall (λ arg, String.prefix "--url" arg = false) before →
  String.prefix "--url" flag = true →
  value ≠ "" →
  let args := before ++ flag :: value :: rest in
  select_urls args w = (Returned [value], w)
  ∧ run args w
    = run_urls (bool_decide ("--update-baseline" ∈ args)) [value] w.
Proof.
  intros Hbefore Hflag Hvalue args.
  assert (select_urls args w = (Returned [value], w)) as Hselect.
  { unfold select_urls, args.
    rewrite (findIndex_url_app 0 before (value :: rest) flag) by done.
    cbn [mbind option_bind].
    replace (before ++ flag :: value :: rest)
      with ((before ++ [flag]) ++ value :: rest) by by rewrite <- app_assoc.
    rewrite lookup_app_r by (rewrite length_app; simpl; lia).
    replace (S (0 + length before) - length (before ++ [flag]))%nat
      with 0%nat by (rewrite length_app; simpl; lia).
    simpl. by destruct value. }
  split; [exact Hselect|].
  unfold run. by rewrite bind_run, Hselect.
Qed.

(** X12. Without a usable [--url] argument the run takes its URLs from
    urls.json: when the file cannot be read or does not parse, the
    process ends with status 1 before anything is invoked or written;
    otherwise the run is the run on the URLs of the file. *)
Theorem configuration_decides_the_run (args : list string) (w : World) :
  (∀ i value, findIndex_url 0 args = Some i → args !! S i = Some value →
              value = "") →
  (urlsFile w = None
   ∨ (∃ data, urlsFile w = Some data ∧ JSON_parse_urls data = None) →
   run args w = (Exited 1, w))
  ∧ (∀ data urls,
       urlsFile w = Some data → JSON_parse_urls data = Some urls →
       run args w
       = run_urls (bool_decide ("--update-baseline" ∈ args)) urls w).
Proof.
  intros Hflag.
  assert (select_urls args w = loadUrls w) as Hselect.
  { unfold select_urls.
    destruct (findIndex_url 0 args) as [i|] eqn:Hi; [|done]. simpl.
    destruct (args !! S i) as [value|] eqn:Hv; [|done].
    by rewrite (Hflag i value). }
  unfold run. rewrite bind_run, Hselect. unfold loadUrls, try_catch.
  rewrite bind_run. split.
  - intros [->|(data & -> & Hparse)]; [done|].
    unfold parse. by rewrite Hparse.
  - intros data urls -> Hparse. unfold parse. by rewrite Hparse.
Qed.
End CommandLine.

Lemma url_flag_takes_next_argument_witness :
  (select_urls (H := Demo.host_offline)
     ["--url=https://example.com/"; "--update-baseline"] Demo.empty_world).1
  = Returned ["--update-baseline"].
Proof.
  destruct (url_flag_takes_next_argument (H := Demo.host_offline)
              [] [] "--url=https://example.com/" "--update-baseline"
              Demo.empty_world) as [Hselect _];
    [constructor|reflexivity|discriminate|].
  cbv zeta in Hselect. simpl app in Hselect. rewrite Hselect. reflexivity.
Defined.

Lemma configuration_decides_the_run_witness :
  run (H := Demo.host_offline) ["--update-baseline"; "--url"] Demo.empty_world
  = (Exited 1, Demo.empty_world).
Proof.
  apply (proj1 (configuration_decides_the_run (H := Demo.host_offline)
                  ["--update-baseline"; "--url"] Demo.empty_world
                  ltac:(intros i value [= <-]; discriminate))).
  left. reflexivity.
Defined.

(** ** The report page *)

Lemma string_app_assoc (a b c : string) :
  ((a ++ b) ++ c = a ++ (b ++ c))%string.
Proof.
  induction a as [|x a IH]; [reflexivity|].
  change (String x ((a ++ b) ++ c) = String x (a ++ (b ++ c)))%string.
  by rewrite IH.
Qed.

Lemma occurs_in_app_l (needle a b : string) :
  occurs_in needle a → occurs_in needle (a ++ b).
Proof.
  intros (before & after & ->). exists before, (after ++ b)%string.
  by rewrite !string_app_assoc.
Qed.

Lemma occurs_in_app_r (needle a b : string) :
  occurs_in needle b → occurs_in needle (a ++ b).
Proof.
  intros (before & after & ->). exists (a ++ before)%string, after.
  by rewrite string_app_assoc.
Qed.

Lemma occurs_in_here (needle before after : string) :
  occurs_in needle (before ++ needle ++ after).
Proof. by exists before, after. Qed.

(** X13. The page of a report is rendered whenever its delta is the one
    [calculateDelta] gives for its baseline, as in [generateReports];
    rendering throws exactly when there is a baseline and no delta. *)
Theorem generateHtmlReport_renders
    (current : Snapshot.t) (baseline : option Snapshot.t) :
  is_Some (Page.generateHtmlReport current baseline
             (calculateDelta current baseline))
  ∧ ∀ delta,
      Page.generateHtmlReport current baseline delta = None
      ↔ is_Some baseline ∧ delta = None.
Proof.
  split.
  - destruct baseline as [baseline|]; by eexists.
  - intros delta. unfold Page.generateHtmlReport.
    destruct baseline as [baseline|], delta as [delta|]; simpl.
    + split; [discriminate|by intros [_ [=]]].
    + split; [intros _; split; [by eexists|done]|done].
    + split; [discriminate|by intros [[? [=]] _]].
    + split; [discriminate|by intros [[? [=]] _]].
Qed.

(** X14. The delta cell of a category reads N/A without a baseline; with
    one it shows the difference between the current and the baseline
    score, in the class [positive] and with a plus sign when the score
    went up, in the class [negative] when it went down (the minus sign is
    that of the number), and as a plain 0 in the class [neutral] when it
    did not move. *)
Theorem formatDelta_of_calculateDelta
    (current baseline : Snapshot.t) (c : Category) :
  let d := Snapshot.get c current - Snapshot.get c baseline in
  Page.formatDelta (Delta.get c <$> calculateDelta current None) = "N/A"
  ∧ Page.formatDelta (Delta.get c <$> calculateDelta current (Some baseline))
    = if 0 <? d
      then (html "<span class=`positive`>+" ++ pretty d ++ "</span>")%string
      else if d <? 0
      then (html "<span class=`negative`>" ++ pretty d ++ "</span>")%string
      else html "<span class=`neutral`>0</span>".
Proof.
  cbv zeta. split; [reflexivity|].
  assert (Delta.get c <$> calculateDelta current (Some baseline)
          = Some (Snapshot.get c current - Snapshot.get c baseline)) as ->
    by by destruct c.
  unfold Page.formatDelta.
  destruct (0 <? _) eqn:Hpos; [reflexivity|].
  destruct (_ <? 0) eqn:Hneg; [reflexivity|].
  assert (Snapshot.get c current - Snapshot.get c baseline = 0) as -> by lia.
  reflexivity.
Qed.

(** X15. The report page and the dashboard grade a score alike: the class
    of [formatScore] is the class of [getScoreClass], which goes with the
    colour of [getScoreColor]: good from 90, poor below 50,
    needs-improvement between. *)
Theorem score_grades_agree (score : Z) :
  Page.formatScore score
  = (html "<span class=`score " ++ Index.getScoreClass score ++ html "`>"
     ++ pretty score ++ "</span>")%string
  ∧ (90 ≤ score ∧ Index.getScoreClass score = "good"
       ∧ Index.getScoreColor score = "#22543d"
     ∨ 50 ≤ score < 90 ∧ Index.getScoreClass score = "needs-improvement"
       ∧ Index.getScoreColor score = "#b7791f"
     ∨ score < 50 ∧ Index.getScoreClass score = "poor"
       ∧ Index.getScoreColor score = "#c53030").
Proof.
  unfold Page.formatScore, Index.getScoreClass, Index.getScoreColor.
  split; [reflexivity|].
  destruct (90 <=? score) eqn:H90; [left; split; [lia|done]|].
  destruct (50 <=? score) eqn:H50; right; [left|right]; (split; [lia|done]).
Qed.

Lemma prefix_app (needle page : string) :
  String.prefix needle page = true → ∃ after, page = (needle ++ after)%string.
Proof.
  revert page. induction needle as [|c needle IH]; intros page Hp.
  - by exists page.
  - destruct page as [|c' page]; [done|].
    change (String.prefix (String c needle) (String c' page))
      with (if ascii_dec c c' then String.prefix needle page else false) in Hp.
    destruct (ascii_dec c c') as [<-|]; [|done].
    destruct (IH page Hp) as [after ->]. by exists after.
Qed.

Lemma occursb_occurs (needle page : string) :
  occursb needle page = true → occurs_in needle page.
Proof.
  induction page as [|c page IH]; intros Ho.
  - unfold occursb in Ho. rewrite orb_false_r in Ho.
    apply prefix_app in Ho as [after ->]. by exists "", after.
  - unfold occursb in Ho; fold occursb in Ho.
    apply orb_true_iff in Ho as [Hp|Ho].
    + apply prefix_app in Hp as [after ->]. by exists "", after.
    + destruct (IH Ho) as (before & after & ->).
      by exists (String c before), after.
Qed.

(** Looks for a text in the pieces of a page, from the left. *)
Ltac find_in_pieces :=
  repeat first
    [ apply occurs_in_app_l; apply occursb_occurs; vm_compute; reflexivity
    | apply occurs_in_app_r ];
  apply occursb_occurs; vm_compute; reflexivity.

(** X16. The page of a report without a baseline says that no baseline
    is available and how to establish one; the page of a report with a
    baseline and a delta has the comparison table. *)
Theorem report_page_baseline_part (current : Snapshot.t) :
  (∀ delta, ∃ page,
     Page.generateHtmlReport current None delta = Some page
     ∧ occurs_in "No baseline data available. Run with --update-baseline to establish baseline."
         page)
  ∧ (∀ baseline delta, ∃ page,
       Page.generateHtmlReport current (Some baseline) (Some delta) = Some page
       ∧ occurs_in "<th>Baseline</th>" page).
Proof.
  split.
  - intros delta. eexists. split; [reflexivity|]. find_in_pieces.
  - intros baseline delta. eexists. split; [reflexivity|]. find_in_pieces.
Qed.

(** ** The dashboard *)

Lemma ends_with_app (suffix s : string) :
  ends_with suffix (s ++ suffix) = true.
Proof.
  induction s as [|c s IH].
  - change ("" ++ suffix)%string with suffix.
    destruct suffix; simpl; [done|].
    by rewrite Ascii.eqb_refl, String.eqb_refl.
  - change (String c s ++ suffix)%string with (String c (s ++ suffix)%string).
    unfold ends_with; fold ends_with. rewrite IH. apply orb_true_r.
Qed.

Lemma elem_of_readdir (files : gmap string string) (file : string) :
  file ∈ readdir files ↔ is_Some (files !! file).
Proof.
  unfold readdir. rewrite list_elem_of_fmap. split.
  - intros ([name data] & -> & Hin).
    apply elem_of_map_to_list in Hin. by eexists.
  - intros [data Hdata]. exists (file, data).
    split; [done|by apply elem_of_map_to_list].
Qed.

Lemma elem_of_filter_bool {A} (f : A → bool) (l : list A) (x : A) :
  x ∈ List.filter f l ↔ x ∈ l ∧ f x = true.
Proof. rewrite !list_elem_of_In. apply filter_In. Qed.

Lemma fold_sum_bounds {A} (f : A → Z) (l : list A) (lo hi : Z) :
  (∀ x, x ∈ l → lo ≤ f x ≤ hi) →
  lo * Z.of_nat (length l) ≤ fold_left (λ sum r, sum + f r) l 0
                           ≤ hi * Z.of_nat (length l).
Proof.
  induction l as [|x l IH]; intros Hb; [simpl; lia|].
  simpl fold_left. rewrite fold_left_add_shift.
  pose proof (Hb x ltac:(left)) as Hx.
  destruct IH as [IH1 IH2]; [intros y Hy; apply Hb; by right|].
  rewrite length_cons, Nat2Z.inj_succ. lia.
Qed.

Section Dashboard.
Context `{!Host, !Runtime}.

Lemma insert_report_Permutation x l : Index.insert_report x l ≡ₚ x :: l.
Proof.
  induction l as [|y l IH]; simpl; [done|].
  destruct (decide _); [done|]. rewrite IH. apply Permutation_swap.
Qed.

Lemma sort_reports_Permutation l : Index.sort_reports l ≡ₚ l.
Proof.
  induction l as [|x l IH]; simpl; [done|].
  by rewrite insert_report_Permutation, IH.
Qed.

Lemma insert_report_Sorted x l :
  (∀ a b, localeCompare a b ≤ 0 ∨ localeCompare b a ≤ 0) →
  Sorted url_order l → Sorted url_order (Index.insert_report x l).
Proof.
  intros Htotal. induction 1 as [|y l Hl IH Hy]; simpl.
  - by repeat constructor.
  - destruct (decide _) as [Hxy|Hxy].
    + constructor; [by constructor|by constructor].
    + constructor; [exact IH|].
      destruct l as [|z l]; simpl.
      * constructor. unfold url_order.
        destruct (Htotal (Snapshot.url (Index.snapshot x))
                         (Snapshot.url (Index.snapshot y))); [lia|done].
      * destruct (decide _).
        -- constructor. unfold url_order.
           destruct (Htotal (Snapshot.url (Index.snapshot x))
                            (Snapshot.url (Index.snapshot y))); [lia|done].
        -- constructor. by inversion Hy.
Qed.

(** X17. The dashboard lists exactly what [latest/] holds: a report for
    every file there whose name ends in [.json] and whose text parses,
    carrying the parsed snapshot and the file name with [.html] for its
    first [.json]; nothing for other files, for files that do not parse,
    or when [latest/] is missing. *)
Theorem getReportData_lists_latest (w : World) (report : Index.report) :
  report ∈ Index.getReportData w ↔
  ∃ file data,
    file_at LatestDir file w = Some data
    ∧ ends_with ".json" file = true
    ∧ JSON_parse_snapshot data = Some (Index.snapshot report)
    ∧ Index.filename report = replace_first ".json" ".html" file.
Proof.
  unfold Index.getReportData, file_at. simpl dir_of.
  destruct (latestDir w) as [files|]; simpl.
  2: { split; [by intros ?%elem_of_nil|by intros (? & ? & [=] & _)]. }
  rewrite sort_reports_Permutation, list_elem_of_omap.
  setoid_rewrite elem_of_filter_bool. setoid_rewrite elem_of_readdir.
  unfold Index.read_report. split.
  - intros (file & [[data Hdata] Hjson] & Hread). exists file, data.
    rewrite Hdata in Hread. simpl in Hread.
    destruct (JSON_parse_snapshot data) as [snap|]; [|done].
    injection Hread as <-. done.
  - intros (file & data & Hdata & Hjson & Hparse & Hname).
    exists file. split; [split; [by eexists|done]|].
    rewrite Hdata. simpl. rewrite Hparse. simpl.
    destruct report as [snap name]. simpl in *. by subst.
Qed.

(** X18. The reports of the dashboard are in the order of their URLs:
    none comes after its successor, whenever [localeCompare] can compare
    any two strings one way or the other. *)
Theorem getReportData_sorted (w : World) :
  (∀ a b, localeCompare a b ≤ 0 ∨ localeCompare b a ≤ 0) →
  Sorted url_order (Index.getReportData w).
Proof.
  intros Htotal. unfold Index.getReportData.
  destruct (latestDir w) as [files|]; [|constructor].
  induction (omap _ _) as [|x l IH]; simpl; [constructor|].
  by apply insert_report_Sorted.
Qed.
End Dashboard.

Lemma getReportData_sorted_witness :
  Sorted (@url_order Tour.runtime)
    (@Index.getReportData Tour.host_round_trip Tour.runtime
       (run_urls (H := Tour.host_round_trip) false ["https://example.com/"]
          Demo.empty_world).2).
Proof.
  apply (@getReportData_sorted Tour.host_round_trip Tour.runtime).
  intros a b. cbn. rewrite (String.compare_antisym a b).
  destruct (String.compare b a); simpl; lia.
Defined.

(** ** The publication of the dashboard *)

Lemma copy_all_lookup (reports docs : gmap string string)
    (names : list string) (name : string) :
  foldl (Index.copy_report reports) docs names !! name =
    if decide (name ∈ names)
    then match reports !! name with
         | Some data => Some data
         | None => docs !! name
         end
    else docs !! name.
Proof.
  revert docs. induction names as [|n names IH]; intros docs.
  - destruct (decide (name ∈ [])) as [?%elem_of_nil|]; done.
  - simpl foldl. rewrite IH. unfold Index.copy_report.
    destruct (decide (name ∈ names)) as [Hin|Hin].
    + destruct (decide (name ∈ n :: names)) as [_|Hnot];
        [|exfalso; apply Hnot; by right].
      destruct (reports !! name) as [data|] eqn:Hname; [done|].
      destruct (reports !! n) as [data'|] eqn:Hn; [|done].
      rewrite lookup_insert_ne by congruence. done.
    + destruct (decide (name = n)) as [->|Hne].
      * destruct (decide (n ∈ n :: names)) as [_|Hnot];
          [|exfalso; apply Hnot; by left].
        destruct (reports !! n) as [data|]; [|done].
        by rewrite lookup_insert_eq.
      * destruct (decide (name ∈ n :: names)) as [[?|?]%elem_of_cons|_];
          [done..|].
        destruct (reports !! n) as [data|]; [|done].
        by rewrite lookup_insert_ne.
Qed.

Section Publication.
Context `{!Host, !Runtime}.

Lemma copied_lookup (s : Index.Site) (name : string) :
  match reportsDir (Index.monitor s) with
  | Some reports =>
      foldl (Index.copy_report reports) (default ∅ (Index.docsDir s))
            (List.filter (ends_with ".html") (readdir reports))
  | None => default ∅ (Index.docsDir s)
  end !! name = published s name.
Proof.
  unfold published, file_at. simpl dir_of.
  assert (default ∅ (Index.docsDir s) !! name = Index.docsDir s ≫= (.!! name))
    as Hold by (destruct (Index.docsDir s); [done|apply lookup_empty]).
  destruct (reportsDir (Index.monitor s)) as [reports|]; simpl; [|done].
  rewrite copy_all_lookup, Hold.
  destruct (reports !! name) as [data|] eqn:Hdata.
  - destruct (ends_with ".html" name) eqn:Hhtml.
    + rewrite decide_True; [done|].
      apply elem_of_filter_bool. split; [|done].
      apply elem_of_readdir. by eexists.
    + rewrite decide_False; [done|].
      intros [_ ?]%elem_of_filter_bool. congruence.
  - by destruct (decide _).
Qed.

Lemma generateIndex_other_files (s : Index.Site) (name : string) :
  name ≠ "index.html" →
  Index.docsDir (Index.generateIndex s).2 ≫= (.!! name) = published s name.
Proof.
  intros Hname. unfold Index.generateIndex. cbv zeta.
  destruct (Index.createIndexHtml (Index.monitor s)) as [page|]; cbn.
  - rewrite lookup_insert_ne by done. apply copied_lookup.
  - apply copied_lookup.
Qed.

(** X19. Generating the index only reads the monitor's directories; it
    leaves [docs/] existing, with every [.html] page of [reports/] copied
    under its name and every other file as it was; and when the dashboard
    is rendered it is written as index.html and the generator succeeds,
    otherwise the generator fails, with the copies made and index.html
    not written. *)
Theorem generateIndex_publishes (s : Index.Site) :
  ∃ docs,
    Index.docsDir (Index.generateIndex s).2 = Some docs
    ∧ (∀ d, dir_of d (Index.monitor (Index.generateIndex s).2)
            = dir_of d (Index.monitor s))
    ∧ (∀ name, name ≠ "index.html" → docs !! name = published s name)
    ∧ (∀ page, Index.createIndexHtml (Index.monitor s) = Some page →
               (Index.generateIndex s).1 = Returned ()
               ∧ docs !! "index.html" = Some page)
    ∧ (Index.createIndexHtml (Index.monitor s) = None →
       exit_status (Index.generateIndex s).1 = 1
       ∧ docs !! "index.html" = published s "index.html").
Proof.
  pose proof (copied_lookup s) as Hcopied.
  unfold Index.generateIndex. cbv zeta.
  destruct (Index.createIndexHtml (Index.monitor s)) as [page|]; cbn [fst snd].
  - eexists. split; [reflexivity|]. split; [by intros []|].
    split; [intros name Hname; by rewrite lookup_insert_ne|].
    split; [|done]. intros ? [= <-]. split; [done|apply lookup_insert_eq].
  - eexists. split; [reflexivity|]. split; [by intros []|].
    split; [intros name _; apply Hcopied|].
    split; [done|]. intros _. split; [done|apply Hcopied].
Qed.

Lemma generateReportCard_None (report : Index.report) :
  Index.generateReportCard report = None
  ↔ URL_parse (Snapshot.url (Index.snapshot report)) = None.
Proof.
  unfold Index.generateReportCard.
  by destruct (URL_parse _) as [[host path]|].
Qed.

(** X20. The dashboard cannot be rendered exactly when [latest/] holds a
    report whose URL the [URL] constructor rejects; with no report at all
    it is rendered, and says that no reports are available yet. *)
Theorem createIndexHtml_fails_on_bad_url (w : World) :
  (Index.createIndexHtml w = None
   ↔ ∃ report, report ∈ Index.getReportData w
               ∧ URL_parse (Snapshot.url (Index.snapshot report)) = None)
  ∧ (Index.getReportData w = [] →
     ∃ page, Index.createIndexHtml w = Some page
             ∧ occurs_in "No reports available yet" page).
Proof.
  unfold Index.createIndexHtml. cbv zeta. split.
  - destruct (Index.getReportData w) as [|r reports] eqn:Hreports.
    { simpl. split; [done|]. by intros (? & ?%elem_of_nil & _). }
    rewrite decide_True by (simpl; lia).
    destruct (mapM Index.generateReportCard (r :: reports)) as [cards|] eqn:Hm.
    + simpl. split; [done|]. intros (report & Hin & Hurl).
      assert (is_Some (mapM Index.generateReportCard (r :: reports))) as Hs
        by by eexists.
      apply mapM_is_Some_1 in Hs. rewrite Forall_forall in Hs.
      apply Hs in Hin as [card Hcard]. simpl in Hcard.
      apply generateReportCard_None in Hurl. congruence.
    + simpl. split; [|done]. intros _.
      apply mapM_None_1, Exists_exists in Hm as (report & Hin & Hnone).
      exists report. split; [done|]. by apply generateReportCard_None.
  - intros ->. simpl. eexists. split; [reflexivity|]. find_in_pieces.
Qed.
End Publication.

(** ** The summary of the dashboard *)

(** X21. The summary section is empty exactly when there is no report,
    so that no average is taken over nothing; an average shown lies
    between any two bounds of the scores it is taken over, and the
    average over a single report is the score of that report. *)
Theorem stats_section_averages (reports : list Index.report) :
  (Index.generateStatsSection reports = "" ↔ reports = [])
  ∧ (reports ≠ [] →
     ∀ field lo hi,
       (∀ r, r ∈ reports → lo ≤ field (Index.snapshot r) ≤ hi) →
       lo ≤ Index.average field reports ≤ hi)
  ∧ ∀ r field, Index.average field [r] = field (Index.snapshot r).
Proof.
  split; [|split].
  - destruct reports as [|r reports]; [done|].
    split; [|done]. unfold Index.generateStatsSection.
    destruct (decide _) as [Hlen|_]; [done|]. cbv zeta. discriminate.
  - intros Hne field lo hi Hb.
    assert (0 < Z.of_nat (length reports)) as Hlen
      by (destruct reports; [done|simpl; lia]).
    unfold Index.average. rewrite Math_round_div by exact Hlen.
    pose proof (fold_sum_bounds (λ r, field (Index.snapshot r)) reports
                  lo hi Hb) as [H1 H2].
    split.
    + apply Z.div_le_lower_bound; lia.
    + apply Z.lt_succ_r. apply Z.div_lt_upper_bound; lia.
  - intros r field. unfold Index.average. rewrite Math_round_div by done.
    simpl fold_left. symmetry.
    apply (Z.div_unique _ _ _ 1); simpl; lia.
Qed.

Lemma stats_section_averages_witness :
  70 ≤ Index.average Snapshot.performance
         [Index.mkReport Tour.snapshot_90 "example-com-.html";
          Index.mkReport (Snapshot.mk "https://redis.io/" 3 71 70 70 70 "T" [])
                         "redis-io-.html"] ≤ 90.
Proof.
  apply (proj1 (proj2 (stats_section_averages _))); [discriminate|].
  intros r [->|[->|[]%elem_of_nil]%elem_of_cons]%elem_of_cons;
    split; by vm_compute.
Defined.

(** ** From the run to the dashboard *)

Section EndToEnd.
Context `{!Host, !Runtime}.

Lemma report_all_is_Some results w files r :
  r ∈ results →
  is_Some (report_all results w files
             !! replace_first ".json" ".html" (urlToFilename (Snapshot.url r))).
Proof.
  induction results as [|x results IH] using rev_ind; intros Hin.
  - by apply elem_of_nil in Hin.
  - unfold report_all. rewrite foldl_app. simpl. fold (report_all results w files).
    destruct (decide (replace_first ".json" ".html" (urlToFilename (Snapshot.url x))
                      = replace_first ".json" ".html" (urlToFilename (Snapshot.url r))))
      as [->|Hne].
    + rewrite lookup_insert_eq. by eexists.
    + rewrite lookup_insert_ne by done.
      apply elem_of_app in Hin as [Hin|Hin]; [by apply IH|].
      apply list_elem_of_singleton in Hin. by subst.
Qed.

(** X22. What a run saves, the dashboard shows, and its links resolve:
    after a run in normal mode all of whose writes succeed, a collected
    snapshot that parses back from its text, and shares its file name with
    no other snapshot of the run, is among the reports of the dashboard,
    with the name of its report page as link; that page is in [reports/],
    and generating the index puts it into [docs/] under the same name,
    unless the name is index.html. *)
Theorem dashboard_links_resolve
    (urls : list string) (w : World) (docs0 : option (gmap string string))
    (r : Snapshot.t) :
  writable false (snapshots_of urls w) w →
  r ∈ snapshots_of urls w →
  (∀ r', r' ∈ snapshots_of urls w →
         urlToFilename (Snapshot.url r') = urlToFilename (Snapshot.url r) →
         r' = r) →
  JSON_parse_snapshot (JSON_stringify r) = Some r →
  let final := (run_urls false urls w).2 in
  let name := replace_first ".json" ".html" (urlToFilename (Snapshot.url r)) in
  Index.mkReport r name ∈ Index.getReportData final
  ∧ ∃ page,
      file_at ReportsDir name final = Some page
      ∧ (name ≠ "index.html" →
         Index.docsDir (Index.generateIndex (Index.mkSite final docs0)).2
           ≫= (.!! name) = Some page).
Proof.
  intros ([latest Hlatest] & Hsave & [reports Hreports] & Hpages)
    Hin Huniq Hparse final name.
  assert (latestDir final = Some (save_all (snapshots_of urls w) latest)
          ∧ reportsDir final
            = Some (report_all (snapshots_of urls w) w reports))
    as [Hl Hr].
  { subst final. destruct (run_urls_normal urls w) as (ticks & ->).
    cbv zeta. unfold saved, reported.
    rewrite Hlatest, Hreports, !accepted_prefix_all by done.
    apply rejection_None in Hsave, Hpages. rewrite Hsave, Hpages.
    destruct (snapshots_of urls w) as [|r0 rs];
      [by apply elem_of_nil in Hin|done]. }
  split.
  - unfold Index.getReportData. rewrite Hl.
    rewrite sort_reports_Permutation, list_elem_of_omap.
    exists (urlToFilename (Snapshot.url r)). split.
    + apply elem_of_filter_bool. split; [|apply ends_with_app].
      apply elem_of_readdir. rewrite save_all_lookup_in by done. by eexists.
    + unfold Index.read_report. rewrite save_all_lookup_in by done.
      simpl. by rewrite Hparse.
  - destruct (report_all_is_Some (snapshots_of urls w) w reports r Hin)
      as [page Hpage].
    assert (file_at ReportsDir name final = Some page) as Hfile
      by (unfold file_at; simpl dir_of; by rewrite Hr).
    exists page. split; [exact Hfile|]. intros Hname.
    rewrite generateIndex_other_files by done.
    unfold published. cbn [Index.monitor]. rewrite Hfile.
    assert (ends_with ".html" name = true) as ->; [|done].
    unfold name, urlToFilename.
    rewrite replace_first_json_suffix by apply dashify_chars.
    apply ends_with_app.
Qed.
End EndToEnd.

Lemma dashboard_links_resolve_witness :
  Index.mkReport Tour.snapshot_90 "example-com-.html"
  ∈ @Index.getReportData Tour.host_round_trip Tour.runtime
      (run_urls (H := Tour.host_round_trip) false ["https://example.com/"]
         Demo.empty_world).2.
Proof.
  assert (snapshots_of (H := Tour.host_round_trip) ["https://example.com/"]
            Demo.empty_world = [Tour.snapshot_90]) as Hresults by reflexivity.
  apply (@dashboard_links_resolve Tour.host_round_trip Tour.runtime
           ["https://example.com/"] Demo.empty_world None Tour.snapshot_90).
  - rewrite Hresults. split; [eexists; reflexivity|].
    split; [by intros r ->%list_elem_of_singleton|].
    split; [eexists; reflexivity|by intros r ->%list_elem_of_singleton].
  - rewrite Hresults. left.
  - intros r' Hr' _. rewrite Hresults in Hr'.
    apply list_elem_of_singleton in Hr'. exact Hr'.
  - reflexivity.
Defined.

Lemma generateIndex_publishes_witness :
  (@Index.generateIndex Tour.host_round_trip Tour.runtime
     (Index.mkSite
        (run_urls (H := Tour.host_round_trip) false ["https://example.com/"]
           Demo.empty_world).2 None)).1 = Returned ().
Proof.
  destruct (@generateIndex_publishes Tour.host_round_trip Tour.runtime
              (Index.mkSite
                 (run_urls (H := Tour.host_round_trip) false
                    ["https://example.com/"] Demo.empty_world).2 None))
    as (docs & _ & _ & _ & Hpage & _).
  destruct (Index.createIndexHtml _) as [page|] eqn:Hrendered.
  - exact (proj1 (Hpage page eq_refl)).
  - vm_compute in Hrendered. discriminate Hrendered.
Defined.

(** ** Order and overwriting *)

Section Order.
Context `{!Host}.

Lemma save_all_app results1 results2 files :
  save_all (results1 ++ results2) files
  = save_all results2 (save_all results1 files).
Proof. unfold save_all. by rewrite foldl_app. Qed.

Lemma save_all_lookup_other results files name :
  (∀ r, r ∈ results → urlToFilename (Snapshot.url r) ≠ name) →
  save_all results files !! name = files !! name.
Proof.
  intros Hother.
  destruct (save_all_lookup results files name) as [|(r & Hr & -> & _)];
    [done|].
  by destruct (Hother r Hr).
Qed.

(** X23. Saving overwrites: when every write succeeds and several of
    the results share a file name (a URL listed twice, or two URLs with
    the same key), the file holds the last of them once [saveResults] has
    returned. *)
Theorem saveResults_last_wins
    (isBaseline : bool) (before after : list Snapshot.t) (r : Snapshot.t)
    (w : World) :
  let target := if isBaseline then BaselineDir else LatestDir in
  is_Some (dir_of target w) →
  accepted target snapshot_file (before ++ r :: after) →
  (∀ r', r' ∈ after →
         urlToFilename (Snapshot.url r') ≠ urlToFilename (Snapshot.url r)) →
  (saveResults (before ++ r :: after) isBaseline w).1 = Returned ()
  ∧ file_at target (urlToFilename (Snapshot.url r))
      (saveResults (before ++ r :: after) isBaseline w).2
    = Some (JSON_stringify r).
Proof.
  intros target [files Hfiles] Hall Hafter.
  rewrite saveResults_spec. cbv zeta. fold target. rewrite Hfiles.
  unfold saved. rewrite (accepted_prefix_all _ _ _ Hall).
  apply rejection_None in Hall. rewrite Hall. split; [done|].
  unfold file_at. cbn [snd]. rewrite dir_of_set_dir. simpl.
  change (r :: after) with ([r] ++ after).
  rewrite !save_all_app, save_all_lookup_other by done.
  unfold save_all at 1. simpl. apply lookup_insert_eq.
Qed.

Lemma rejected_after_accepted {A} (d : Dir) (file : A → string * string)
    (before after : list A) (x : A) (error : string) :
  accepted d file before →
  writeFile_error d (file x).1 (file x).2 = Some error →
  accepted_prefix d file (before ++ x :: after) = before
  ∧ rejection d file (before ++ x :: after) = Some error.
Proof.
  intros Hbefore Hx. induction before as [|y before IH]; simpl.
  - by rewrite Hx.
  - rewrite (Hbefore y) by left.
    destruct IH as [-> ->]; [|done]. intros z Hz. apply Hbefore. by right.
Qed.

(** X25. Saving stops at the first file the file system rejects:
    [saveResults] throws the error of that file, the results before it
    are saved, nothing is written for it or for a result after it, and the
    other directories stay as they were. *)
Theorem saveResults_stops_at_rejection
    (isBaseline : bool) (before after : list Snapshot.t) (r : Snapshot.t)
    (error : string) (w : World) :
  let target := if isBaseline then BaselineDir else LatestDir in
  let final := (saveResults (before ++ r :: after) isBaseline w).2 in
  is_Some (dir_of target w) →
  accepted target snapshot_file before →
  writeFile_error target (urlToFilename (Snapshot.url r)) (JSON_stringify r)
    = Some error →
  (saveResults (before ++ r :: after) isBaseline w).1 = Thrown error
  ∧ dir_of target final = save_all before <$> dir_of target w
  ∧ ∀ d, d ≠ target → dir_of d final = dir_of d w.
Proof.
  intros target final [files Hfiles] Hbefore Hr. subst final.
  rewrite saveResults_spec. cbv zeta. fold target. rewrite Hfiles.
  destruct (rejected_after_accepted target snapshot_file before after r error
              Hbefore Hr) as [Hsaved ->].
  unfold saved. rewrite Hsaved. cbn [fst snd ended].
  split; [done|]. split; [by rewrite dir_of_set_dir|].
  intros d Hd. by rewrite dir_of_set_dir_ne.
Qed.

(** X24. The snapshots a run collects come in the order of its URLs, at
    most one for each entry of the list: their URLs form a sublist of the
    list of URLs. *)
Theorem snapshots_follow_urls (urls : list string) (w : World) :
  Snapshot.url <$> snapshots_of urls w `sublist_of` urls.
Proof.
  revert w. induction urls as [|url urls IH]; intros w; [done|].
  rewrite snapshots_of_cons, runMultipleLighthouse_spec. cbv zeta.
  destruct (successful_runs _ _ _ _) as [|s ss]; simpl.
  - apply sublist_cons, IH.
  - apply sublist_skip, IH.
Qed.
End Order.

Lemma saveResults_last_wins_witness :
  file_at BaselineDir "example-com-.json"
    (saveResults (H := Demo.host_offline)
       [Snapshot.mk "http://example.com/" 3 50 50 50 50 "T+1" [];
        Snapshot.mk "https://example.com/" 3 90 70 70 70 "T+2" []]
       true Demo.empty_world).2
  = Some "https://example.com/ runs:3 P:90 A:70 BP:70 SEO:70".
Proof.
  apply (saveResults_last_wins (H := Demo.host_offline) true
           [Snapshot.mk "http://example.com/" 3 50 50 50 50 "T+1" []] []
           (Snapshot.mk "https://example.com/" 3 90 70 70 70 "T+2" [])
           Demo.empty_world).
  - eexists. reflexivity.
  - intros r' [->|[->|[]%elem_of_nil]%elem_of_cons]%elem_of_cons;
      reflexivity.
  - intros r' Hr'. by apply elem_of_nil in Hr'.
Defined.

Lemma saveResults_stops_at_rejection_witness :
  (saveResults (H := Demo.host_offline)
     [Snapshot.mk "https://example.com/" 3 90 70 70 70 "T+1" [];
      Snapshot.mk Demo.long_url 3 90 70 70 70 "T+2" [];
      Snapshot.mk "https://redis.io/" 3 90 70 70 70 "T+3" []]
     false Demo.empty_world).1
  = Thrown "ENAMETOOLONG".
Proof.
  apply (saveResults_stops_at_rejection (H := Demo.host_offline) false
           [Snapshot.mk "https://example.com/" 3 90 70 70 70 "T+1" []]
           [Snapshot.mk "https://redis.io/" 3 90 70 70 70 "T+3" []]
           (Snapshot.mk Demo.long_url 3 90 70 70 70 "T+2" [])
           "ENAMETOOLONG" Demo.empty_world).
  - eexists. reflexivity.
  - by intros r ->%list_elem_of_singleton.
  - by vm_compute.
Defined.
